(** * AccessViz: identifier resolution, table join and mode comparison

    A shallow embedding of [AccessViz.py] (functions [filefinder],
    [tablejoiner], [visualiser] and [compare]) together with the properties
    its specification states about them.

    Python integers are [Z]; the numeric cells of a pandas frame are 64-bit
    integers, kept as [Z] with the wrap-around of their arithmetic written
    out.  Frames are column oriented, as pandas stores them.  Exceptions,
    the standard output and the files read and written are threaded through
    a state-and-exception monad. *)

From stdpp Require Import base list strings pretty gmap.
From Stdlib Require Import ZArith Ascii.

Local Open Scope Z_scope.

(* ================================================================== *)
(** * Exceptions and results *)

Inductive exn : Type :=
| AssertionError (msg : string)
| UnboundLocalError (var : string)
| KeyError (key : string)
| IndexError
| TypeError
| ValueError
| DriverError (path : string)
| FileNotFoundError (path : list string).

(** [UnboundLocalError] is a subclass of [NameError]. *)
Definition is_NameError (e : exn) : bool :=
  match e with UnboundLocalError _ => true | _ => false end.

Inductive result (A : Type) : Type :=
| Ok (a : A)
| Raise (e : exn).
Arguments Ok {A} a.
Arguments Raise {A} e.

#[global] Instance result_ret : MRet result := λ A a, Ok a.
#[global] Instance result_bind : MBind result := λ A B f r,
  match r with Ok a => f a | Raise e => Raise e end.

(* ================================================================== *)
(** * Strings as Python uses them here *)

(** [str(n)] for an integer. *)
Definition str (n : Z) : string := pretty n.

(** [s[0:k]] *)
Definition slice_to (k : nat) (s : string) : string := String.substring 0 k s.

(** [s[-k:]] for [k > 0] *)
Definition slice_last (k : nat) (s : string) : string :=
  String.substring (String.length s - k) k s.

(** [s.rfind(c)], [None] standing for [-1]. *)
Fixpoint rfind (c : Ascii.ascii) (s : string) : option nat :=
  match s with
  | EmptyString => None
  | String a s' =>
      match rfind c s' with
      | Some i => Some (S i)
      | None => if Ascii.eqb a c then Some 0%nat else None
      end
  end.

(** A [pathlib] path, kept as the segments given to [Path(...)]; the last
    segment carries the file name in every path this module builds. *)
Definition Path : Type := list string.

Definition name (p : Path) : string := List.last p "".

(** [Path.stem]: the name without its last suffix; a dot that leads or ends
    the name does not start a suffix. *)
Definition stem (p : Path) : string :=
  let nm := name p in
  match rfind "."%char nm with
  | Some i =>
      if (0 <? i)%nat && (i <? String.length nm - 1)%nat
      then String.substring 0 i nm else nm
  | None => nm
  end.

(* ================================================================== *)
(** * Frames *)

Inductive Geometry : Type :=
| Polygon (ring : list (Z * Z)).

#[global] Instance Geometry_eq_dec : EqDecision Geometry.
Proof. solve_decision. Defined.

Definition int64_min : Z := - 2 ^ 63.
Definition int64_max : Z := 2 ^ 63 - 1.

Definition in_int64 (z : Z) : Prop := int64_min <= z <= int64_max.

(** Two's-complement wrap of a 64-bit signed result. *)
Definition wrap64 (z : Z) : Z := (z + 2 ^ 63) mod 2 ^ 64 - 2 ^ 63.

Definition sub64 (a b : Z) : Z := wrap64 (a - b).

Inductive Column : Type :=
| IntCol (xs : list Z)
| StrCol (ss : list string)
| GeomCol (gs : list Geometry).

#[global] Instance Column_eq_dec : EqDecision Column.
Proof. solve_decision. Defined.

Definition col_length (c : Column) : nat :=
  match c with
  | IntCol xs => length xs
  | StrCol ss => length ss
  | GeomCol gs => length gs
  end.

Record DataFrame : Type := mkFrame {
  index : list Z;
  columns : list (string * Column)
}.

#[global] Instance DataFrame_eq_dec : EqDecision DataFrame.
Proof. solve_decision. Defined.

Definition labels (df : DataFrame) : list string := (columns df).*1.

(** Every column is as long as the index, and the integer cells fit 64 bits. *)
Definition col_wf (n : nat) (c : Column) : Prop :=
  col_length c = n ∧
  match c with IntCol xs => Forall in_int64 xs | _ => True end.

Definition frame_wf (df : DataFrame) : Prop :=
  NoDup (labels df) ∧ Forall (λ lc, col_wf (length (index df)) lc.2) (columns df).

Fixpoint assoc {A} (k : string) (l : list (string * A)) : option A :=
  match l with
  | [] => None
  | (k', a) :: l' => if String.eqb k' k then Some a else assoc k l'
  end.

(** [df[label]] *)
Definition getitem (df : DataFrame) (label : string) : result Column :=
  match assoc label (columns df) with
  | Some c => Ok c
  | None => Raise (KeyError label)
  end.

(** The integers of [series.tolist()]: an entry of another type equals no
    integer, so a membership test on an integer sees the integers only. *)
Definition tolist (c : Column) : list Z :=
  match c with IntCol xs => xs | _ => [] end.

(** [series >= 0].  A text column is compared cell by cell, so the first
    cell raises and a column without rows gives the empty mask; a geometry
    column has no ordering at all. *)
Definition ge0 (c : Column) : result (list bool) :=
  match c with
  | IntCol xs => Ok (map (λ x, 0 <=? x) xs)
  | StrCol [] => Ok []
  | StrCol (_ :: _) => Raise TypeError
  | GeomCol _ => Raise TypeError
  end.

(** [series == n] *)
Definition eq_scalar (c : Column) (n : Z) : list bool :=
  match c with
  | IntCol xs => map (λ x, x =? n) xs
  | StrCol ss => map (λ _, false) ss
  | GeomCol gs => map (λ _, false) gs
  end.

(** [m1 & m2] on boolean series of one frame *)
Definition mask_and (m1 m2 : list bool) : list bool := zip_with andb m1 m2.

Fixpoint mask_filter {A} (mask : list bool) (l : list A) : list A :=
  match mask, l with
  | b :: mask', x :: l' =>
      if b then x :: mask_filter mask' l' else mask_filter mask' l'
  | _, _ => []
  end.

Definition col_filter (mask : list bool) (c : Column) : Column :=
  match c with
  | IntCol xs => IntCol (mask_filter mask xs)
  | StrCol ss => StrCol (mask_filter mask ss)
  | GeomCol gs => GeomCol (mask_filter mask gs)
  end.

(** [df.loc[mask]]: the rows whose mask entry is true, index labels kept. *)
Definition loc (df : DataFrame) (mask : list bool) : DataFrame :=
  {| index := mask_filter mask (index df);
     columns := prod_map id (col_filter mask) <$> columns df |}.

(** [df[[l1, ..., lk]]] *)
Definition getitem_list (df : DataFrame) (ls : list string) : result DataFrame :=
  cols ← mapM (λ l, c ← getitem df l; mret (l, c)) ls;
  mret {| index := index df; columns := cols |}.

(** [s1 - s2] on two series of one frame.  With a text column the cells
    are subtracted one by one, which raises at the first row, so only
    columns without rows get through, as an empty column of objects. *)
Definition series_sub (c1 c2 : Column) : result Column :=
  match c1, c2 with
  | IntCol xs, IntCol ys => Ok (IntCol (zip_with sub64 xs ys))
  | GeomCol _, _ | _, GeomCol _ => Raise TypeError
  | _, _ =>
      if (col_length c1 =? 0)%nat && (col_length c2 =? 0)%nat
      then Ok (StrCol []) else Raise TypeError
  end.

Fixpoint replace_col (label : string) (c : Column) (l : list (string * Column))
  : list (string * Column) :=
  match l with
  | [] => []
  | (k, c') :: l' =>
      if String.eqb k label then (k, c) :: l' else (k, c') :: replace_col label c l'
  end.

(** [df[label] = series]: replaces the column in place when the label
    exists, appends it as the last column otherwise. *)
Definition setitem (df : DataFrame) (label : string) (c : Column) : DataFrame :=
  {| index := index df;
     columns := match assoc label (columns df) with
                | Some _ => replace_col label c (columns df)
                | None => columns df ++ [(label, c)]
                end |}.

(** [df.rename(columns={old: new})]; a missing [old] is ignored. *)
Definition rename (df : DataFrame) (old new : string) : DataFrame :=
  {| index := index df;
     columns := prod_map (λ k, if String.eqb k old then new else k) id <$> columns df |}.

(** Row positions of a join: every pair of a left and a right position
    holding the same key, left positions in order and, for one left
    position, right positions in order.  The grid keys are unique, and for
    unique left keys this is the row order of an inner [merge]. *)
Definition matches `{EqDecision A} (k : A) (rk : list A) : list nat :=
  (filter (λ jk, jk.2 = k) (imap pair rk)).*1.

Definition join_indexers `{EqDecision A} (lk rk : list A) : list (nat * nat) :=
  mjoin (imap (λ i k, pair i <$> matches k rk) lk).

(** The positions for two key columns: keys of one type are compared,
    integer keys against text keys are refused, and geometries cannot be
    keys. *)
Definition key_indexers (lc rc : Column) : result (list (nat * nat)) :=
  match lc, rc with
  | IntCol lk, IntCol rk => Ok (join_indexers lk rk)
  | StrCol lk, StrCol rk => Ok (join_indexers lk rk)
  | GeomCol _, _ | _, GeomCol _ => Raise TypeError
  | _, _ => Raise ValueError
  end.

(** [take] by position *)
Definition take {A} (positions : list nat) (l : list A) : list A :=
  omap (λ i, l !! i) positions.

Definition col_take (positions : list nat) (c : Column) : Column :=
  match c with
  | IntCol xs => IntCol (take positions xs)
  | StrCol ss => StrCol (take positions ss)
  | GeomCol gs => GeomCol (take positions gs)
  end.

(** A label found on both sides, other than the key, gets the side's suffix. *)
Definition suffixed (sfx : string) (others : list string) (on k : string) : string :=
  if bool_decide (k ≠ on) && bool_decide (k ∈ others) then k +:+ sfx else k.

(** [left.merge(right, on=key)], an inner join ([how] is left at its
    default): the columns of [left], then those of [right] without the key,
    over the matching row pairs; the index is renumbered. *)
Definition merge (left right : DataFrame) (on : string) : result DataFrame :=
  rc ← getitem right on;
  lc ← getitem left on;
  ix ← key_indexers lc rc;
  mret {| index := Z.of_nat <$> seq 0 (length ix);
          columns :=
            (prod_map (suffixed "_x" (labels right) on) (col_take ix.*1)
               <$> columns left) ++
            (prod_map (suffixed "_y" (labels left) on) (col_take ix.*2)
               <$> filter (λ kc, kc.1 ≠ on) (columns right)) |}.

(** [df.reset_index(drop=True)] *)
Definition reset_index (df : DataFrame) : DataFrame :=
  {| index := Z.of_nat <$> seq 0 (length (index df)); columns := columns df |}.

(** [l[i]] on a Python list *)
Definition py_index {A} (l : list A) (i : nat) : result A :=
  match l !! i with Some a => Ok a | None => Raise IndexError end.

(** [int(s)] on an ASCII string: surrounding white space is dropped, one
    sign is allowed, and digits may be separated by single underscores. *)
Definition is_space (c : ascii) : bool :=
  let n := nat_of_ascii c in
  ((9 <=? n) && (n <=? 13) || (28 <=? n) && (n <=? 32))%nat.

Definition digit_val (c : ascii) : option Z :=
  let n := nat_of_ascii c in
  if ((48 <=? n) && (n <=? 57))%nat then Some (Z.of_nat (n - 48)) else None.

Fixpoint lstrip (s : string) : string :=
  match s with
  | String c s' => if is_space c then lstrip s' else s
  | EmptyString => EmptyString
  end.

Definition strip (s : string) : string :=
  String.rev (lstrip (String.rev (lstrip s))).

Fixpoint digits (acc : Z) (after_digit : bool) (s : string) : option Z :=
  match s with
  | EmptyString => if after_digit then Some acc else None
  | String c s' =>
      match digit_val c with
      | Some d => digits (10 * acc + d) true s'
      | None =>
          if Ascii.eqb c "_" && after_digit then digits acc false s' else None
      end
  end.

Definition py_int (s : string) : result Z :=
  let parsed :=
    match strip s with
    | String "+" r => digits 0 false r
    | String "-" r => Z.opp <$> digits 0 false r
    | r => digits 0 false r
    end in
  match parsed with Some z => Ok z | None => Raise ValueError end.

(* ================================================================== *)
(** * The world: files, standard output, and the run-time monad *)

(** What a call leaves on disk.  Rendering is done by matplotlib and
    folium; a saved map is kept as the request handed to them. *)
Inductive Output : Type :=
| LayerFile (target : Path) (driver layer : option string) (frame : DataFrame)
| CsvFile (target column : string) (rows : list Path)
| PngFile (target title : string) (layer : DataFrame) (column : string)
    (marker : DataFrame)
| HtmlFile (target legend : string) (layer : DataFrame) (column : string)
    (marker : DataFrame) (popup : string).

Record World : Type := mkWorld {
  (** what [gpd.read_file(path, layer=...)] finds *)
  spatial_files : string → option string → option DataFrame;
  (** what [pd.read_csv(path, sep=";")] finds *)
  text_tables : Path → option DataFrame;
  stdout : list string;
  written : list Output
}.

Definition M (A : Type) : Type := World → result A * World.

#[global] Instance M_ret : MRet M := λ A a w, (Ok a, w).
#[global] Instance M_bind : MBind M := λ A B f m w,
  match m w with
  | (Ok a, w') => f a w'
  | (Raise e, w') => (Raise e, w')
  end.

Definition lift {A} (r : result A) : M A := λ w, (r, w).

Definition raise {A} (e : exn) : M A := λ w, (Raise e, w).

Definition add_stdout (w : World) (lines : list string) : World :=
  {| spatial_files := spatial_files w; text_tables := text_tables w;
     stdout := stdout w ++ lines; written := written w |}.

Definition add_written (w : World) (outputs : list Output) : World :=
  {| spatial_files := spatial_files w; text_tables := text_tables w;
     stdout := stdout w; written := written w ++ outputs |}.

Definition print (line : string) : M unit := λ w, (Ok (), add_stdout w [line]).

Definition emit (o : Output) : M unit := λ w, (Ok (), add_written w [o]).

Definition gpd_read_file (path : string) (layer : option string) : M DataFrame :=
  λ w, match spatial_files w path layer with
       | Some df => (Ok df, w)
       | None => (Raise (DriverError path), w)
       end.

Definition pd_read_csv (path : Path) : M DataFrame :=
  λ w, match text_tables w path with
       | Some df => (Ok df, w)
       | None => (Raise (FileNotFoundError path), w)
       end.

Definition py_assert (b : bool) (msg : string) : M unit :=
  if b then mret () else raise (AssertionError msg).

(** Reading a local variable that no branch has assigned. *)
Definition local {A} (var : string) (v : option A) : M A :=
  match v with Some a => mret a | None => raise (UnboundLocalError var) end.

(** [GeoDataFrame.to_file] *)
Definition to_file (frame : DataFrame) (target : Path) (driver layer : option string)
  : M unit :=
  emit (LayerFile target driver layer frame).

Definition grid_path : string :=
  "MetropAccess_YKR_grid\MetropAccess_YKR_grid_EurefFIN.shp".

(* ================================================================== *)
(** * filefinder *)

Inductive pyval : Type :=
| PyNone
| PyList (paths : list Path).

(** [Path(folder_path, str(ID)[0:4] + "xxx", "travel_times_to_ {}.txt".format(ID))] *)
Definition file_path (folder_path : string) (ID : Z) : Path :=
  [folder_path;
   slice_to 4 (str ID) +:+ "xxx";
   "travel_times_to_ " +:+ str ID +:+ ".txt"].

Definition progress_line (ID count length : Z) : string :=
  "Processing file travel_times_to_" +:+ str ID +:+ ".txt.. Progress: "
    +:+ str count +:+ "/" +:+ str length.

Definition missing_line (ID : Z) (folder_path : string) : string :=
  "A file for YKR_ID " +:+ str ID
    +:+ " does not appear in provided folder path: " +:+ folder_path.

(** The [for ID in YKR_ID_Values_as_list] loop; [count] and
    [YKR_file_paths] are the two locals it updates. *)
Fixpoint filefinder_loop (IDs : list Z) (folder_path : string) (length : Z)
    (ids : list Z) (count : Z) (YKR_file_paths : list Path) : M (list Path) :=
  match ids with
  | [] => mret YKR_file_paths
  | ID :: rest =>
      let count := count + 1 in
      if bool_decide (ID ∈ IDs) then
        let fp := file_path folder_path ID in
        let YKR_file_paths := YKR_file_paths ++ [fp] in
        print (progress_line ID count length);;
        filefinder_loop IDs folder_path length rest count YKR_file_paths
      else
        print (missing_line ID folder_path);;
        filefinder_loop IDs folder_path length rest count YKR_file_paths
  end.

Definition filefinder (YKR_ID_Values_as_list : list Z) (folder_path output : string)
  : M pyval :=
  py_assert (0 <? length YKR_ID_Values_as_list)%nat
    "List is empty! List must contain at least one YKR_ID";;
  file ← gpd_read_file grid_path None;
  ids_column ← lift (getitem file "YKR_ID");
  let IDs := tolist ids_column in
  let txt_file_path := "file_paths.txt" in
  let length := Z.of_nat (length YKR_ID_Values_as_list) in
  YKR_file_paths ← filefinder_loop IDs folder_path length YKR_ID_Values_as_list 0 [];
  if String.eqb output "list" then mret (PyList YKR_file_paths)
  else if String.eqb output "text" then
    emit (CsvFile txt_file_path "file_paths" YKR_file_paths);; mret PyNone
  else mret PyNone.

(* ================================================================== *)
(** * tablejoiner *)

(** One turn of the [for path in list] loop. *)
Definition tablejoiner_step (output_folder output_format : string) (path : Path)
  : M unit :=
  data_grid ← gpd_read_file grid_path None;
  data ← pd_read_csv path;
  let data := rename data "from_id" "YKR_ID" in
  data ← lift (merge data_grid data "YKR_ID");
  if String.eqb output_format "shp" then
    to_file data [output_folder; slice_last 7 (stem path)] None None
  else if String.eqb output_format "gpk" then
    to_file data [output_folder; "TravelMatrix.gpkg"] (Some "GPKG")
      (Some (slice_last 7 (stem path)))
  else mret ().

Fixpoint tablejoiner_loop (output_folder output_format : string) (list : list Path)
  : M unit :=
  match list with
  | [] => mret ()
  | path :: rest =>
      tablejoiner_step output_folder output_format path;;
      tablejoiner_loop output_folder output_format rest
  end.

Definition tablejoiner (output_folder output_format : string) (list : list Path)
  : M unit :=
  py_assert (0 <? length list)%nat
    "List is empty! List must contain at least one file path";;
  tablejoiner_loop output_folder output_format list.

(* ================================================================== *)
(** * visualiser and compare *)

(** The input branch shared by [visualiser] and [compare]: [data] is
    assigned for ['shp'] and for ['gpkg'] only. *)
Definition read_input (file path YKR_ID : string) : M (option DataFrame) :=
  if String.eqb file "shp" then
    data ← gpd_read_file path None; mret (Some data)
  else if String.eqb file "gpkg" then
    data ← gpd_read_file path (Some YKR_ID); mret (Some data)
  else mret None.

(** The map title chosen from the mode. *)
Definition mode_title (mode : string) : string :=
  if String.eqb mode "pt_m_t" then "Public transport "
  else if String.eqb mode "car_sl_t" then "Car "
  else if String.eqb mode "walk_t" then "Walking "
  else if String.eqb mode "bike_f_t" then "Biking "
  else "Please enter a correct value for mode".


(** [data.loc[data[mode] >= 0]] then [selection[[mode, 'geometry']]] *)
Definition visualiser_selection (data : DataFrame) (mode : string)
  : result DataFrame :=
  col ← getitem data mode;
  mask ← ge0 col;
  let selection := loc data mask in
  getitem_list selection [mode; "geometry"].

(** [selection.to_crs(epsg=4326)]: coordinates are symbolic here and the
    request for geographic coordinates goes to the renderer with the layer. *)
Definition to_crs (df : DataFrame) (epsg : Z) : DataFrame := df.

Definition visualiser (file path YKR_ID mode output map : string) : M unit :=
  data ← read_input file path YKR_ID;
  data ← local "data" data;
  selection ← lift (visualiser_selection data mode);
  data_grid ← gpd_read_file grid_path None;
  ids ← lift (getitem data_grid "YKR_ID");
  n ← lift (py_int YKR_ID);
  let position := reset_index (loc data_grid (eq_scalar ids n)) in
  let title := mode_title mode in
  if String.eqb map "static" then
    emit (PngFile (output +:+ YKR_ID +:+ "_" +:+ map +:+ ".png")
            (title +:+ " travel time (minutes) from YKR_ID " +:+ YKR_ID
               +:+ " (depicted by star) to other Helsinki regions")
            selection mode position)
  else if String.eqb map "interactive" then
    let selection := to_crs selection 4326 in
    let selection := setitem selection "geoid" (StrCol (str <$> index selection)) in
    let title := mode_title mode in
    emit (HtmlFile (output +:+ YKR_ID +:+ "_" +:+ map +:+ ".html")
            (title +:+ " travel time (minutes) from YKR_ID " +:+ YKR_ID
               +:+ " to other Helsinki regions")
            selection mode (to_crs position 4326) YKR_ID)
  else mret ().

(** Lines 287-289 of [compare]: the rows where both modes are valid, cut
    down to the two mode columns and the geometry, with [diff] added.  When
    both names are the same the label is duplicated in the cut-down frame,
    [selection[list[0]]] is then a two-column frame, and pandas refuses to
    store it in the single column [diff]. *)
Definition compare_selection (data : DataFrame) (list : list string)
  : result DataFrame :=
  a ← py_index list 0;
  ca ← getitem data a;
  ma ← ge0 ca;
  b ← py_index list 1;
  cb ← getitem data b;
  mb ← ge0 cb;
  let selection := loc data (mask_and ma mb) in
  selection ← getitem_list selection [a; b; "geometry"];
  if String.eqb a b then Raise ValueError
  else
    sa ← getitem selection a;
    sb ← getitem selection b;
    d ← series_sub sa sb;
    mret (setitem selection "diff" d).

Definition compare (file YKR_ID path : string) (list : list string) : M unit :=
  data ← read_input file path YKR_ID;
  data ← local "data" data;
  selection ← lift (compare_selection data list);
  a ← lift (py_index list 0);
  b ← lift (py_index list 1);
  if String.eqb file "shp" then
    to_file data
      [path +:+ "\Acessibility_" +:+ YKR_ID +:+ "_" +:+ a +:+ "_vs_" +:+ b +:+ ".shp"]
      None None
  else if String.eqb file "gpkg" then
    to_file data
      ["Acessibility_" +:+ YKR_ID +:+ "_" +:+ a +:+ "_vs_" +:+ b +:+ ".gpkg"]
      (Some "GPKG") (Some YKR_ID)
  else mret ().

(* ================================================================== *)
(** * Notions of the specification *)

(** The specification's [resolve] splits the requested identifiers into
    those the grid catalog holds and those it does not, each in the order
    of the request. *)
Definition resolve_spec (IDs ids : list Z) : list Z * list Z :=
  (filter (λ ID, ID ∈ IDs) ids, filter (λ ID, ID ∉ IDs) ids).

(** The lines the loop of [filefinder] prints for [ids], the counter
    standing at [count] before the first of them. *)
Fixpoint report (IDs : list Z) (folder_path : string) (length : Z)
    (ids : list Z) (count : Z) : list string :=
  match ids with
  | [] => []
  | ID :: rest =>
      (if bool_decide (ID ∈ IDs) then progress_line ID (count + 1) length
       else missing_line ID folder_path)
      :: report IDs folder_path length rest (count + 1)
  end.

(** Recognises the line printed for an identifier the grid does not hold. *)
Definition is_missing_line (line : string) : bool :=
  String.prefix "A file for YKR_ID " line.

(** How many entries the sequences in a returned value hold. *)
Definition returned_length (v : pyval) : nat :=
  match v with PyNone => 0 | PyList paths => length paths end.

(** The set of identifiers in a key column. *)
Definition id_set (ids : list Z) : gset Z := list_to_set ids.

(** The mask [(data[a] >= 0) & (data[b] >= 0)] of two numeric columns. *)
Definition both_valid (xs ys : list Z) : list bool :=
  mask_and (map (λ x, 0 <=? x) xs) (map (λ y, 0 <=? y) ys).

#[global] Instance in_int64_dec z : Decision (in_int64 z).
Proof. unfold in_int64. apply _. Defined.

#[global] Instance col_wf_dec n c : Decision (col_wf n c).
Proof. unfold col_wf. destruct c; apply _. Defined.

#[global] Instance frame_wf_dec df : Decision (frame_wf df).
Proof. unfold frame_wf. apply _. Defined.

(** A location [tablejoiner] can join: its table parses, has a numeric
    [from_id] column and no column already called [YKR_ID]. *)
Definition joinable (w : World) (path : Path) : Prop :=
  ∃ table tids,
    text_tables w path = Some table ∧
    getitem table "from_id" = Ok (IntCol tids) ∧
    "YKR_ID" ∉ labels table.

(* ================================================================== *)
(** * Sample data *)

Module Sample.

Definition cell (x y : Z) : Geometry :=
  Polygon [(x, y); (x + 250, y); (x + 250, y + 250); (x, y + 250)].

Definition grid : DataFrame :=
  {| index := [0; 1; 2; 3];
     columns :=
       [("YKR_ID", IntCol [5785640; 5785641; 5785642; 5785643]);
        ("geometry", GeomCol [cell 0 0; cell 250 0; cell 500 0; cell 750 0])] |}.

(** [travel_times_to_ 5785640.txt], parsed *)
Definition table : DataFrame :=
  {| index := [0; 1; 2];
     columns :=
       [("from_id", IntCol [5785641; 5785640; 9999999]);
        ("to_id", IntCol [5785640; 5785640; 5785640]);
        ("car_r_t", IntCol [15; -1; 20]);
        ("pt_r_t", IntCol [25; 30; -1])] |}.

(** A joined layer with no-data cells in both mode columns. *)
Definition layer : DataFrame :=
  {| index := [0; 1; 2; 3];
     columns :=
       [("YKR_ID", IntCol [5785640; 5785641; 5785642; 5785643]);
        ("geometry", GeomCol [cell 0 0; cell 250 0; cell 500 0; cell 750 0]);
        ("to_id", IntCol [5785640; 5785640; 5785640; 5785640]);
        ("car_r_t", IntCol [15; -1; 20; 0]);
        ("pt_r_t", IntCol [25; 30; -1; 7])] |}.

Definition grid_ids : list Z := [5785640; 5785641; 5785642; 5785643].

Definition request : list Z := [5785640; 300; 5785642].

Definition world : World :=
  {| spatial_files := λ path layer_name,
       if decide (path = grid_path ∧ layer_name = None) then Some grid
       else if decide (path = "layers\5785640.shp" ∧ layer_name = None)
       then Some layer
       else if decide (path = "TravelMatrix.gpkg" ∧ layer_name = Some "5785640")
       then Some layer
       else None;
     text_tables := λ path,
       if decide (path = file_path "data" 5785640) then Some table
       else if decide (path = file_path "data" 5785641) then Some table
       else None;
     stdout := [];
     written := [] |}.

End Sample.

(* ================================================================== *)
(** * Further notions and sample worlds *)

(** What one turn of the loop of [tablejoiner] saves for a joined frame. *)
Definition saved_as (output_folder output_format : string) (path : Path)
    (joined : DataFrame) : list Output :=
  if String.eqb output_format "shp" then
    [LayerFile [output_folder; slice_last 7 (stem path)] None None joined]
  else if String.eqb output_format "gpk" then
    [LayerFile [output_folder; "TravelMatrix.gpkg"] (Some "GPKG")
       (Some (slice_last 7 (stem path))) joined]
  else [].

(** The layer name [tablejoiner] gives to a location of [filefinder]. *)
Definition layer_name (folder_path : string) (ID : Z) : string :=
  slice_last 7 (stem (file_path folder_path ID)).

(** The rows of a frame seen through two numeric columns: index label and
    the two values. *)
Definition rows2 (labels : list Z) (xs ys : list Z) : list (Z * (Z * Z)) :=
  zip labels (zip xs ys).

(** Every column is as long as the index and its integer cells fit 64
    bits: what [frame_wf] asks beyond distinct labels. *)
Definition rectangular (df : DataFrame) : Prop :=
  Forall (λ lc, col_wf (length (index df)) lc.2) (columns df).

#[global] Instance rectangular_dec df : Decision (rectangular df).
Proof. unfold rectangular. apply _. Defined.

Module Cases.

(** No grid shapefile on disk. *)
Definition no_grid : World :=
  {| spatial_files := λ _ _, None;
     text_tables := text_tables Sample.world;
     stdout := [];
     written := [] |}.

(** A grid shapefile whose identifier column has another name. *)
Definition unkeyed_grid : DataFrame :=
  {| index := [0; 1];
     columns := [("ID", IntCol [5785640; 5785641]);
                 ("geometry", GeomCol [Sample.cell 0 0; Sample.cell 250 0])] |}.

Definition unkeyed : World :=
  {| spatial_files := λ path layer_name,
       if decide (path = grid_path ∧ layer_name = None) then Some unkeyed_grid
       else None;
     text_tables := text_tables Sample.world;
     stdout := [];
     written := [] |}.

(** Identifiers of the grid, all with a table on disk. *)
Definition served : list Z := [5785641; 5785640].

End Cases.

(* ================================================================== *)
(** * Running the monad *)

Lemma add_stdout_nil w : add_stdout w [] = w.
Proof. destruct w; unfold add_stdout; simpl. by rewrite app_nil_r. Qed.

Lemma add_stdout_app w l1 l2 :
  add_stdout (add_stdout w l1) l2 = add_stdout w (l1 ++ l2).
Proof. unfold add_stdout; simpl. by rewrite app_assoc. Qed.

Lemma add_written_nil w : add_written w [] = w.
Proof. destruct w; unfold add_written; simpl. by rewrite app_nil_r. Qed.

Lemma add_written_app w l1 l2 :
  add_written (add_written w l1) l2 = add_written w (l1 ++ l2).
Proof. unfold add_written; simpl. by rewrite app_assoc. Qed.

Ltac run :=
  unfold mbind, M_bind, mret, M_ret, lift, raise, print, emit, to_file,
    py_assert, local; simpl.

(* ================================================================== *)
(** * filefinder *)

Lemma filefinder_loop_run IDs folder len ids :
  ∀ count acc w,
    filefinder_loop IDs folder len ids count acc w
    = (Ok (acc ++ (file_path folder <$> (resolve_spec IDs ids).1)),
       add_stdout w (report IDs folder len ids count)).
Proof.
  induction ids as [|ID rest IH]; intros count acc w; simpl.
  - by rewrite add_stdout_nil, app_nil_r.
  - rewrite filter_cons. case_bool_decide as HID.
    + rewrite decide_True by done. run.
      rewrite IH, add_stdout_app. simpl. by rewrite <- app_assoc.
    + rewrite decide_False by done. run.
      by rewrite IH, add_stdout_app.
Qed.

Lemma report_length IDs folder len ids :
  ∀ count, length (report IDs folder len ids count) = length ids.
Proof. induction ids as [|ID rest IH]; intros; simpl; [done|]. by rewrite IH. Qed.

Lemma report_lookup IDs folder len ids :
  ∀ count i ID,
    ids !! i = Some ID →
    report IDs folder len ids count !! i
    = Some (if bool_decide (ID ∈ IDs)
            then progress_line ID (count + 1 + Z.of_nat i) len
            else missing_line ID folder).
Proof.
  induction ids as [|ID' rest IH]; intros count i ID Hi; [done|].
  destruct i as [|i]; simpl in *.
  - inversion Hi; subst. by rewrite Z.add_0_r.
  - rewrite (IH _ _ _ Hi).
    by replace (count + 1 + Z.of_nat (S i)) with (count + 1 + 1 + Z.of_nat i) by lia.
Qed.

Lemma is_missing_progress ID count len :
  is_missing_line (progress_line ID count len) = false.
Proof. reflexivity. Qed.

Lemma is_missing_missing ID folder :
  is_missing_line (missing_line ID folder) = true.
Proof. unfold is_missing_line, missing_line. simpl. by destruct (_ +:+ _). Qed.

Lemma report_missing IDs folder len ids :
  ∀ count,
    filter (λ line, is_missing_line line = true) (report IDs folder len ids count)
    = (λ ID, missing_line ID folder) <$> (resolve_spec IDs ids).2.
Proof.
  induction ids as [|ID rest IH]; intros count; simpl; [done|].
  rewrite !filter_cons. case_bool_decide as HID.
  - rewrite decide_False by (by rewrite is_missing_progress).
    rewrite decide_False by (intros H; by apply H). apply IH.
  - rewrite decide_True by apply is_missing_missing.
    rewrite decide_True by done. simpl. f_equal. apply IH.
Qed.

Lemma resolve_spec_length IDs ids :
  (length (resolve_spec IDs ids).1 + length (resolve_spec IDs ids).2
   = length ids)%nat.
Proof.
  simpl. rewrite <- length_app.
  apply Permutation_length, filter_app_complement.
Qed.

(** The run of [filefinder] on a non-empty request against a readable grid. *)
Lemma filefinder_run w grid IDs ids folder output :
  ids ≠ [] →
  spatial_files w grid_path None = Some grid →
  getitem grid "YKR_ID" = Ok (IntCol IDs) →
  let paths := file_path folder <$> (resolve_spec IDs ids).1 in
  let w' := add_stdout w (report IDs folder (Z.of_nat (length ids)) ids 0) in
  filefinder ids folder output w
  = if String.eqb output "list" then (Ok (PyList paths), w')
    else if String.eqb output "text"
         then (Ok PyNone, add_written w' [CsvFile "file_paths.txt" "file_paths" paths])
         else (Ok PyNone, w').
Proof.
  intros Hne Hgrid HIDs.
  assert (Hlen : (0 <? length ids)%nat = true) by (by destruct ids).
  unfold filefinder. rewrite Hlen.
  unfold py_assert, mbind, M_bind, mret, M_ret, lift, gpd_read_file.
  rewrite Hgrid, HIDs. simpl.
  rewrite filefinder_loop_run.
  destruct (String.eqb output "list"); [done|].
  by destruct (String.eqb output "text").
Qed.

(** C2, as stated, fails: [filefinder] returns one sequence only.  Asked for
    three identifiers of which the grid holds two, it returns the two file
    locations; the identifier it could not resolve is in no returned
    sequence, so what is returned is shorter than the request. *)
Lemma filefinder_returns_resolved_only :
  let ids := [5785640; 300; 5785642] in
  ∃ w',
    ids ≠ [] ∧
    filefinder ids "data" "list" Sample.world
    = (Ok (PyList [file_path "data" 5785640; file_path "data" 5785642]), w') ∧
    returned_length (PyList [file_path "data" 5785640; file_path "data" 5785642])
    ≠ length ids.
Proof.
  eexists. split; [done|]. split; [vm_compute; reflexivity|]. simpl. lia.
Qed.

(** C2, amended: for a non-empty request and output ['list'], [filefinder]
    returns the file locations of the identifiers the grid holds, in the
    order of the request, and prints one line for each identifier the grid
    does not hold, in the order of the request; the returned locations and
    the identifiers so reported partition the request, each part keeping the
    order of the request. *)
Theorem filefinder_partition
    (w : World) (grid : DataFrame) (IDs ids : list Z) (folder_path : string) :
  ids ≠ [] →
  spatial_files w grid_path None = Some grid →
  getitem grid "YKR_ID" = Ok (IntCol IDs) →
  ∃ resolved unresolved printed,
    resolve_spec IDs ids = (resolved, unresolved) ∧
    filefinder ids folder_path "list" w
    = (Ok (PyList (file_path folder_path <$> resolved)), add_stdout w printed) ∧
    filter (λ line, is_missing_line line = true) printed
    = (λ ID, missing_line ID folder_path) <$> unresolved ∧
    (length resolved + length unresolved = length ids)%nat ∧
    resolved ++ unresolved ≡ₚ ids ∧
    resolved `sublist_of` ids ∧
    unresolved `sublist_of` ids.
Proof.
  intros Hne Hgrid HIDs.
  exists (resolve_spec IDs ids).1, (resolve_spec IDs ids).2,
    (report IDs folder_path (Z.of_nat (length ids)) ids 0).
  split; [done|]. split.
  { by rewrite (filefinder_run w grid IDs ids folder_path "list"). }
  split; [apply report_missing|].
  split; [apply resolve_spec_length|].
  split; [apply filter_app_complement|].
  split; apply sublist_filter.
Qed.

Lemma filefinder_partition_witness :
  ∃ resolved unresolved printed,
    resolve_spec Sample.grid_ids Sample.request = (resolved, unresolved) ∧
    filefinder Sample.request "data" "list" Sample.world
    = (Ok (PyList (file_path "data" <$> resolved)),
       add_stdout Sample.world printed) ∧
    filter (λ line, is_missing_line line = true) printed
    = (λ ID, missing_line ID "data") <$> unresolved ∧
    (length resolved + length unresolved = length Sample.request)%nat ∧
    resolved ++ unresolved ≡ₚ Sample.request ∧
    resolved `sublist_of` Sample.request ∧
    unresolved `sublist_of` Sample.request.
Proof.
  apply (filefinder_partition Sample.world Sample.grid);
    [done | reflexivity | reflexivity].
Defined.

(** C5, as stated, fails: the directory is named by the first four
    characters of the identifier followed by [xxx], but the file name is not
    [travel_times_to_<ID>.txt].  The naming scheme of [filefinder] is the
    format ["travel_times_to_ {}.txt"], with a blank before the identifier:
    for 5785640 the location ends in [travel_times_to_ 5785640.txt]; only the
    line printed next to it spells the name without the blank. *)
Lemma filefinder_file_name_5785640 :
  ∃ w',
    filefinder [5785640] "data" "list" Sample.world
    = (Ok (PyList [["data"; "5785xxx"; "travel_times_to_ 5785640.txt"]]), w') ∧
    stdout w' = ["Processing file travel_times_to_5785640.txt.. Progress: 1/1"] ∧
    name (file_path "data" 5785640) ≠ "travel_times_to_5785640.txt".
Proof.
  eexists. split; [vm_compute; reflexivity|]. split; [reflexivity|].
  vm_compute. discriminate.
Qed.

(** C6: on an empty request [filefinder] stops at its first statement with
    an [AssertionError]; the grid is not read, nothing is printed and
    nothing is written. *)
Theorem filefinder_empty (folder_path output : string) (w : World) :
  filefinder [] folder_path output w
  = (Raise (AssertionError "List is empty! List must contain at least one YKR_ID"),
     w).
Proof. reflexivity. Qed.

(* ================================================================== *)
(** * The input branch of visualiser and compare *)

Lemma assoc_None {A} (k : string) (l : list (string * A)) :
  assoc k l = None ↔ k ∉ l.*1.
Proof.
  induction l as [|[k' a] l IH]; simpl.
  - split; [intros _; apply not_elem_of_nil | done].
  - destruct (String.eqb_spec k' k) as [->|Hne].
    + split; [done | intros H; destruct H; left].
    + rewrite not_elem_of_cons, <- IH. intuition congruence.
Qed.

Lemma getitem_missing (df : DataFrame) (label : string) :
  label ∉ labels df → getitem df label = Raise (KeyError label).
Proof.
  intros H. apply assoc_None in H. unfold getitem. by rewrite H.
Qed.

Lemma read_input_other (file path YKR_ID : string) (w : World) :
  file ≠ "shp" → file ≠ "gpkg" → read_input file path YKR_ID w = (Ok None, w).
Proof.
  intros Hshp Hgpkg. unfold read_input.
  destruct (String.eqb_spec file "shp"); [done|].
  by destruct (String.eqb_spec file "gpkg").
Qed.

(** C10: when [file] is neither ['shp'] nor ['gpkg'] no branch assigns
    [data]; [compare] and [visualiser] then stop at the row selection with
    [UnboundLocalError], a [NameError], having read, printed and written
    nothing, and binding [data] cannot succeed: the selection is reached
    only for ['shp'] and ['gpkg']. *)
Theorem data_unbound_for_other_file
    (file path YKR_ID mode output map : string) (list : list string) (w : World) :
  file ≠ "shp" →
  file ≠ "gpkg" →
  compare file YKR_ID path list w = (Raise (UnboundLocalError "data"), w) ∧
  visualiser file path YKR_ID mode output map w
  = (Raise (UnboundLocalError "data"), w) ∧
  is_NameError (UnboundLocalError "data") = true ∧
  ∀ data w', (read_input file path YKR_ID ≫= local "data") w ≠ (Ok data, w').
Proof.
  intros Hshp Hgpkg.
  pose proof (read_input_other file path YKR_ID w Hshp Hgpkg) as Hread.
  unfold compare, visualiser, mbind, M_bind. rewrite Hread. simpl.
  repeat split; done.
Qed.

Lemma data_unbound_for_other_file_witness :
  compare "csv" "5785640" "layers\5785640.shp" ["car_r_t"; "pt_r_t"] Sample.world
  = (Raise (UnboundLocalError "data"), Sample.world) ∧
  visualiser "csv" "layers\5785640.shp" "5785640" "car_r_t" "maps\" "static"
    Sample.world
  = (Raise (UnboundLocalError "data"), Sample.world) ∧
  is_NameError (UnboundLocalError "data") = true ∧
  ∀ data w',
    (read_input "csv" "layers\5785640.shp" "5785640" ≫= local "data") Sample.world
    ≠ (Ok data, w').
Proof.
  apply (data_unbound_for_other_file "csv"); done.
Defined.


(* ================================================================== *)
(** * compare *)

(** Whatever [compare] saves is the layer it read: the frame handed to
    [to_file] is [data], not the [selection] computed from it. *)
Lemma compare_saves_input
    (file YKR_ID path : string) (list : list string) (w w' : World) :
  compare file YKR_ID path list w = (Ok (), w') →
  ∃ data target driver layer,
    read_input file path YKR_ID w = (Ok (Some data), w) ∧
    w' = add_written w [LayerFile target driver layer data].
Proof.
  unfold compare, read_input, mbind, M_bind, gpd_read_file.
  destruct (String.eqb file "shp") eqn:Hshp.
  - destruct (spatial_files w path None) as [data|]; simpl; [|done].
    unfold lift. destruct (compare_selection data list); [|done].
    destruct (py_index list 0); [|done]. destruct (py_index list 1); [|done].
    unfold to_file, emit. intros [= <-]. by eexists _, _, _, _.
  - destruct (String.eqb file "gpkg") eqn:Hgpkg; [|done].
    destruct (spatial_files w path (Some YKR_ID)) as [data|]; simpl; [|done].
    unfold lift. destruct (compare_selection data list); [|done].
    destruct (py_index list 0); [|done]. destruct (py_index list 1); [|done].
    unfold to_file, emit. intros [= <-]. by eexists _, _, _, _.
Qed.

(** C1: [compare] computes the selection the claim describes (the rows with
    both modes at least 0, cut down to the two modes and the geometry, with
    [diff] added) but saves [data], the layer as read.  For a layer whose
    second and third rows hold -1, the selection keeps rows 0 and 3 only,
    while the saved layer has all four rows, every column of the input and
    no [diff] column. *)
Theorem compare_saves_unfiltered_layer :
  compare_selection Sample.layer ["car_r_t"; "pt_r_t"]
  = Ok {| index := [0; 3];
          columns := [("car_r_t", IntCol [15; 0]);
                      ("pt_r_t", IntCol [25; 7]);
                      ("geometry", GeomCol [Sample.cell 0 0; Sample.cell 750 0]);
                      ("diff", IntCol [-10; -7])] |} ∧
  compare "shp" "5785640" "layers\5785640.shp" ["car_r_t"; "pt_r_t"] Sample.world
  = (Ok (),
     add_written Sample.world
       [LayerFile
          ["layers\5785640.shp\Acessibility_5785640_car_r_t_vs_pt_r_t.shp"]
          None None Sample.layer]) ∧
  getitem Sample.layer "car_r_t" = Ok (IntCol [15; -1; 20; 0]) ∧
  getitem Sample.layer "pt_r_t" = Ok (IntCol [25; 30; -1; 7]) ∧
  getitem Sample.layer "diff" = Raise (KeyError "diff") ∧
  labels Sample.layer = ["YKR_ID"; "geometry"; "to_id"; "car_r_t"; "pt_r_t"].
Proof.
  repeat split; vm_compute; reflexivity.
Qed.

Lemma wrap64_id z : in_int64 z → wrap64 z = z.
Proof.
  unfold in_int64, int64_min, int64_max, wrap64. intros Hz.
  rewrite Z.mod_small by lia. lia.
Qed.

Lemma sub64_valid a b :
  in_int64 a → in_int64 b → 0 <= a → 0 <= b → sub64 a b = a - b.
Proof.
  unfold sub64, in_int64, int64_min, int64_max. intros Ha Hb Ha0 Hb0.
  apply wrap64_id. unfold in_int64, int64_min, int64_max. lia.
Qed.

Lemma mask_and_comm m1 m2 : mask_and m1 m2 = mask_and m2 m1.
Proof.
  unfold mask_and. revert m2.
  induction m1 as [|b1 m1 IH]; intros [|b2 m2]; simpl; [done..|].
  by rewrite IH, andb_comm.
Qed.

Lemma both_valid_comm xs ys : both_valid xs ys = both_valid ys xs.
Proof. apply mask_and_comm. Qed.

(** On the rows kept, no subtraction wraps. *)
Lemma valid_rows_sub64 xs :
  ∀ ys,
    Forall in_int64 xs → Forall in_int64 ys →
    zip_with sub64 (mask_filter (both_valid xs ys) xs)
      (mask_filter (both_valid xs ys) ys)
    = zip_with Z.sub (mask_filter (both_valid xs ys) xs)
        (mask_filter (both_valid xs ys) ys).
Proof.
  induction xs as [|x xs IH]; intros [|y ys] Hxs Hys; simpl; [done..|].
  inversion_clear Hxs. inversion_clear Hys.
  unfold both_valid in *. simpl.
  destruct (Z.leb_spec 0 x), (Z.leb_spec 0 y); simpl; auto.
  rewrite sub64_valid by done. f_equal. auto.
Qed.

(** The rows kept hold no negative value in either column. *)
Lemma valid_rows_ge0 xs :
  ∀ ys,
    Forall (λ x, 0 <= x) (mask_filter (both_valid xs ys) xs) ∧
    Forall (λ y, 0 <= y) (mask_filter (both_valid xs ys) ys).
Proof.
  induction xs as [|x xs IH]; intros [|y ys]; simpl; [by split..|].
  unfold both_valid in *. simpl. specialize (IH ys).
  destruct (Z.leb_spec 0 x), (Z.leb_spec 0 y); simpl; try done.
  destruct IH. by split; constructor.
Qed.

Lemma zip_with_sub_opp (xs : list Z) :
  ∀ ys, zip_with Z.sub xs ys = Z.opp <$> zip_with Z.sub ys xs.
Proof.
  induction xs as [|x xs IH]; intros [|y ys]; simpl; [done..|].
  rewrite IH. f_equal. lia.
Qed.

Lemma assoc_fmap_value {A B} (f : A → B) k (l : list (string * A)) :
  assoc k (prod_map id f <$> l) = f <$> assoc k l.
Proof.
  induction l as [|[k' a] l IH]; simpl; [done|].
  by destruct (String.eqb k' k).
Qed.

Lemma assoc_Some_elem {A} k (a : A) (l : list (string * A)) :
  assoc k l = Some a → (k, a) ∈ l.
Proof.
  induction l as [|[k' a'] l IH]; simpl; [done|].
  destruct (String.eqb_spec k' k) as [->|_].
  - intros [= ->]. left.
  - intros H. right. by apply IH.
Qed.

Lemma assoc_app {A} k (l1 l2 : list (string * A)) :
  assoc k (l1 ++ l2)
  = match assoc k l1 with Some a => Some a | None => assoc k l2 end.
Proof.
  induction l1 as [|[k' a] l1 IH]; simpl; [done|]. by destruct (String.eqb k' k).
Qed.

Lemma assoc_replace_col label c l :
  is_Some (assoc label l) → assoc label (replace_col label c l) = Some c.
Proof.
  induction l as [|[k c'] l IH]; simpl; [by intros [? ?]|].
  destruct (String.eqb k label) eqn:Hk; simpl; rewrite Hk; [done|]. apply IH.
Qed.

Lemma assoc_replace_col_ne label c k l :
  k ≠ label → assoc k (replace_col label c l) = assoc k l.
Proof.
  intros Hne. induction l as [|[k' c'] l IH]; simpl; [done|].
  destruct (String.eqb_spec k' label) as [->|Hk]; simpl.
  - by destruct (String.eqb_spec label k).
  - by rewrite IH.
Qed.

Lemma getitem_Some_elem df label c :
  getitem df label = Ok c → (label, c) ∈ columns df.
Proof.
  unfold getitem. destruct (assoc label (columns df)) eqn:H; [|done].
  intros [= ->]. by apply assoc_Some_elem.
Qed.

Lemma frame_wf_int df label xs :
  frame_wf df → getitem df label = Ok (IntCol xs) →
  Forall in_int64 xs ∧ length xs = length (index df).
Proof.
  intros [_ Hwf] Hget. apply getitem_Some_elem in Hget.
  rewrite Forall_forall in Hwf. by destruct (Hwf _ Hget) as [Hlen Hint].
Qed.

Lemma getitem_loc df mask label c :
  getitem df label = Ok c → getitem (loc df mask) label = Ok (col_filter mask c).
Proof.
  unfold getitem, loc. simpl. rewrite assoc_fmap_value.
  destruct (assoc label (columns df)); [|done]. by intros [= ->].
Qed.

Lemma getitem_setitem df label c : getitem (setitem df label c) label = Ok c.
Proof.
  unfold getitem, setitem. simpl.
  destruct (assoc label (columns df)) eqn:H.
  - rewrite assoc_replace_col; [done|]. by rewrite H.
  - rewrite assoc_app, H. simpl. by rewrite String.eqb_refl.
Qed.

Lemma getitem_setitem_ne df label c k :
  k ≠ label → getitem (setitem df label c) k = getitem df k.
Proof.
  intros Hne. unfold getitem, setitem. simpl.
  destruct (assoc label (columns df)) eqn:H.
  - by rewrite assoc_replace_col_ne.
  - rewrite assoc_app. destruct (assoc k (columns df)); [done|]. simpl.
    by destruct (String.eqb_spec label k) as [->|].
Qed.

(** The selection of [compare] for two distinct numeric columns of a layer
    with a geometry. *)
Lemma compare_selection_run data A B xs ys g :
  A ≠ B →
  getitem data A = Ok (IntCol xs) →
  getitem data B = Ok (IntCol ys) →
  getitem data "geometry" = Ok g →
  let valid := both_valid xs ys in
  compare_selection data [A; B]
  = Ok (setitem
          {| index := mask_filter valid (index data);
             columns := [(A, IntCol (mask_filter valid xs));
                         (B, IntCol (mask_filter valid ys));
                         ("geometry", col_filter valid g)] |}
          "diff"
          (IntCol (zip_with sub64 (mask_filter valid xs) (mask_filter valid ys)))).
Proof.
  intros Hne HA HB Hg valid. unfold compare_selection. simpl.
  rewrite HA, HB. simpl. fold (both_valid xs ys). fold valid.
  unfold getitem_list. simpl.
  rewrite (getitem_loc _ _ _ _ HA), (getitem_loc _ _ _ _ HB),
    (getitem_loc _ _ _ _ Hg).
  simpl.
  destruct (String.eqb_spec A B) as [?|_]; [done|].
  unfold getitem at 1. simpl. rewrite String.eqb_refl. simpl.
  unfold getitem at 1. simpl.
  destruct (String.eqb_spec A B) as [?|_]; [done|]. rewrite String.eqb_refl.
  done.
Qed.

(** The [diff] column of the selection that [compare] computes and does not
    save: for two distinct numeric columns [A] and [B] of a well-formed
    layer, the selection keeps the rows where both are at least 0 and its
    [diff] holds, row by row, the value of [A] minus the value of [B] as
    integers (no 64-bit wrap occurs on the rows kept); asked for [B] and
    [A] it keeps the same rows, and the two [diff] columns are the negation
    of one another. *)
Theorem compare_diff_antisymmetric
    (data : DataFrame) (A B : string) (xs ys : list Z) (g : Column) :
  frame_wf data →
  A ≠ B →
  getitem data A = Ok (IntCol xs) →
  getitem data B = Ok (IntCol ys) →
  getitem data "geometry" = Ok g →
  let valid := both_valid xs ys in
  let va := mask_filter valid xs in
  let vb := mask_filter valid ys in
  ∃ sel_ab sel_ba,
    compare_selection data [A; B] = Ok sel_ab ∧
    compare_selection data [B; A] = Ok sel_ba ∧
    index sel_ab = mask_filter valid (index data) ∧
    index sel_ba = index sel_ab ∧
    (A ≠ "diff" → getitem sel_ab A = Ok (IntCol va)) ∧
    (B ≠ "diff" → getitem sel_ab B = Ok (IntCol vb)) ∧
    getitem sel_ab "diff" = Ok (IntCol (zip_with Z.sub va vb)) ∧
    getitem sel_ba "diff" = Ok (IntCol (zip_with Z.sub vb va)) ∧
    zip_with Z.sub va vb = Z.opp <$> zip_with Z.sub vb va.
Proof.
  intros Hwf Hne HA HB Hg valid va vb.
  destruct (frame_wf_int _ _ _ Hwf HA) as [Hxs _].
  destruct (frame_wf_int _ _ _ Hwf HB) as [Hys _].
  eexists _, _.
  split; [by apply (compare_selection_run data A B xs ys g)|].
  split; [by apply (compare_selection_run data B A ys xs g)|].
  rewrite (both_valid_comm ys xs). fold valid va vb.
  split; [done|]. split; [done|].
  split; [|split; [|split; [|split]]].
  - intros HAd. rewrite getitem_setitem_ne by done.
    unfold getitem. simpl. by rewrite String.eqb_refl.
  - intros HBd. rewrite getitem_setitem_ne by done.
    unfold getitem. simpl.
    destruct (String.eqb_spec A B) as [?|_]; [done|]. by rewrite String.eqb_refl.
  - rewrite getitem_setitem. unfold va, vb, valid.
    by rewrite valid_rows_sub64.
  - rewrite getitem_setitem. unfold va, vb, valid.
    rewrite (both_valid_comm xs ys). by rewrite valid_rows_sub64.
  - apply zip_with_sub_opp.
Qed.

Lemma compare_diff_antisymmetric_witness :
  ∃ sel_ab sel_ba,
    compare_selection Sample.layer ["car_r_t"; "pt_r_t"] = Ok sel_ab ∧
    compare_selection Sample.layer ["pt_r_t"; "car_r_t"] = Ok sel_ba ∧
    index sel_ab = [0; 3] ∧
    index sel_ba = index sel_ab ∧
    ("car_r_t" ≠ "diff" → getitem sel_ab "car_r_t" = Ok (IntCol [15; 0])) ∧
    ("pt_r_t" ≠ "diff" → getitem sel_ab "pt_r_t" = Ok (IntCol [25; 7])) ∧
    getitem sel_ab "diff" = Ok (IntCol [-10; -7]) ∧
    getitem sel_ba "diff" = Ok (IntCol [10; 7]) ∧
    [-10; -7] = Z.opp <$> [10; 7].
Proof.
  refine (compare_diff_antisymmetric Sample.layer "car_r_t" "pt_r_t"
            [15; -1; 20; 0] [25; 30; -1; 7]
            (GeomCol [Sample.cell 0 0; Sample.cell 250 0;
                      Sample.cell 500 0; Sample.cell 750 0])
            _ _ eq_refl eq_refl eq_refl).
  - apply (bool_decide_unpack _). vm_compute. exact I.
  - done.
Defined.

(* ================================================================== *)
(** * merge and tablejoiner *)

Lemma elem_of_matches `{EqDecision A} (k : A) (rk : list A) j :
  j ∈ matches k rk ↔ rk !! j = Some k.
Proof.
  unfold matches. rewrite list_elem_of_fmap. split.
  - intros ([j' v] & -> & Hin). apply list_elem_of_filter in Hin as [Hk Hin].
    apply elem_of_lookup_imap in Hin as (i & x & [= -> ->] & Hx). simpl in *. by subst.
  - intros Hj. exists (j, k). split; [done|]. apply list_elem_of_filter.
    split; [done|]. apply elem_of_lookup_imap. by exists j, k.
Qed.

Lemma elem_of_join_indexers `{EqDecision A} (lk rk : list A) i j :
  (i, j) ∈ join_indexers lk rk ↔ ∃ k, lk !! i = Some k ∧ rk !! j = Some k.
Proof.
  unfold join_indexers. rewrite list_elem_of_join. split.
  - intros (l & Hin & Hl). apply elem_of_lookup_imap in Hl as (i' & k & -> & Hk).
    apply list_elem_of_fmap in Hin as (j' & [= -> ->] & Hj).
    exists k. split; [done|]. by apply elem_of_matches.
  - intros (k & Hi & Hj). exists (pair i <$> matches k rk). split.
    + apply list_elem_of_fmap. exists j. split; [done|]. by apply elem_of_matches.
    + apply elem_of_lookup_imap. by exists i, k.
Qed.

Lemma elem_of_take {A} (ps : list nat) (l : list A) x :
  x ∈ take ps l ↔ ∃ i, i ∈ ps ∧ l !! i = Some x.
Proof. unfold take. apply list_elem_of_omap. Qed.

Lemma take_lookup {A} (l : list A) (ps : list nat) :
  Forall (λ i, is_Some (l !! i)) ps →
  ∀ r, take ps l !! r = ps !! r ≫= λ i, l !! i.
Proof.
  induction 1 as [|p ps [x Hx] Hps IH]; intros r; [done|].
  unfold take in *. simpl. rewrite Hx. destruct r; simpl; [done|]. apply IH.
Qed.

Lemma take_length {A} (l : list A) (ps : list nat) :
  Forall (λ i, is_Some (l !! i)) ps → length (take ps l) = length ps.
Proof.
  induction 1 as [|p ps [x Hx] Hps IH]; [done|].
  unfold take in *. simpl. rewrite Hx. simpl. f_equal. exact IH.
Qed.

Lemma join_indexers_left `{EqDecision A} (lk rk : list A) :
  Forall (λ i, is_Some (lk !! i)) (join_indexers lk rk).*1.
Proof.
  apply Forall_forall. intros i Hi.
  apply list_elem_of_fmap in Hi as ([i' j] & -> & Hin).
  apply elem_of_join_indexers in Hin as (k & Hk & _). by exists k.
Qed.

Lemma joined_ids `{EqDecision A} (lk rk : list A) id :
  id ∈ take (join_indexers lk rk).*1 lk ↔ id ∈ lk ∧ id ∈ rk.
Proof.
  rewrite elem_of_take. split.
  - intros (i & Hi & Hid). apply list_elem_of_fmap in Hi as ([i' j] & -> & Hin).
    apply elem_of_join_indexers in Hin as (k & Hk & Hj). simpl in *.
    assert (k = id) as -> by congruence.
    split; apply list_elem_of_lookup; eauto.
  - intros [Hl Hr]. apply list_elem_of_lookup in Hl as [i Hi].
    apply list_elem_of_lookup in Hr as [j Hj].
    exists i. split; [|done]. apply list_elem_of_fmap. exists (i, j).
    split; [done|]. apply elem_of_join_indexers. eauto.
Qed.

Lemma assoc_fmap_label {A B} (f : string → string) (g : A → B) k
    (l : list (string * A)) :
  (∀ k', k' ∈ l.*1 → f k' = f k → k' = k) →
  assoc (f k) (prod_map f g <$> l) = g <$> assoc k l.
Proof.
  induction l as [|[k' a] l IH]; intros Hinj; simpl; [done|].
  destruct (String.eqb_spec k' k) as [->|Hne].
  - by rewrite String.eqb_refl.
  - destruct (String.eqb_spec (f k') (f k)) as [Heq|_].
    + destruct Hne. apply Hinj; [left|done].
    + apply IH. intros k'' Hin. apply Hinj. by right.
Qed.

Lemma append_x_not_key k : k +:+ "_x" ≠ "YKR_ID".
Proof.
  intros H.
  do 6 (destruct k as [|? k]; simpl in H; [discriminate H|injection H as _ H]).
  destruct k; discriminate H.
Qed.

Lemma append_x_not_geometry k : k +:+ "_x" ≠ "geometry".
Proof.
  intros H.
  do 8 (destruct k as [|? k]; simpl in H; [discriminate H|injection H as _ H]).
  destruct k; discriminate H.
Qed.

Lemma suffixed_key sfx others on : suffixed sfx others on on = on.
Proof. unfold suffixed. by rewrite bool_decide_false by (by intros []). Qed.

Lemma suffixed_keep sfx others on k : k ∉ others → suffixed sfx others on k = k.
Proof.
  intros H. unfold suffixed. rewrite (bool_decide_false (k ∈ others)) by done.
  by rewrite andb_false_r.
Qed.

Lemma suffixed_cases sfx others on k :
  suffixed sfx others on k = k ∨ suffixed sfx others on k = k +:+ sfx.
Proof. unfold suffixed. destruct (_ && _); auto. Qed.

Lemma labels_rename df old new :
  labels (rename df old new)
  = (λ k, if String.eqb k old then new else k) <$> labels df.
Proof.
  unfold labels, rename. simpl. rewrite <- !list_fmap_compose.
  apply list_fmap_ext. by intros _ [k c] _.
Qed.

Lemma getitem_rename df old new c :
  getitem df old = Ok c → new ∉ labels df →
  getitem (rename df old new) new = Ok c.
Proof.
  intros Hget Hnew. unfold getitem, rename in *. simpl.
  pose proof (assoc_fmap_label (λ k, if String.eqb k old then new else k) id old
                (columns df)) as H.
  simpl in H. rewrite String.eqb_refl in H. rewrite H.
  - destruct (assoc old (columns df)); [|done]. simpl. by inversion Hget.
  - intros k' Hin. destruct (String.eqb_spec k' old); [done|].
    intros ->. by destruct Hnew.
Qed.

Lemma not_in_labels_rename df old new k :
  k ≠ new → k ∉ labels df → k ∉ labels (rename df old new).
Proof.
  intros Hne Hk. rewrite labels_rename. intros Hin.
  apply list_elem_of_fmap in Hin as (k' & Heq & Hin).
  destruct (String.eqb_spec k' old); subst; [done|]. by destruct Hk.
Qed.

(** The inner join of two frames with a numeric key. *)
Lemma merge_run left right on lk rk :
  getitem left on = Ok (IntCol lk) →
  getitem right on = Ok (IntCol rk) →
  let ix := join_indexers lk rk in
  merge left right on
  = Ok {| index := Z.of_nat <$> seq 0 (length ix);
          columns :=
            (prod_map (suffixed "_x" (labels right) on) (col_take ix.*1)
               <$> columns left) ++
            (prod_map (suffixed "_y" (labels left) on) (col_take ix.*2)
               <$> filter (λ kc, kc.1 ≠ on) (columns right)) |}.
Proof. intros Hl Hr ix. unfold merge. by rewrite Hr, Hl. Qed.

(** A column of the left frame whose label no suffix can produce is found
    in the join under its label, taken at the left positions. *)
Lemma getitem_merge_left left right on lk rk label c joined :
  merge left right on = Ok joined →
  getitem left on = Ok (IntCol lk) →
  getitem right on = Ok (IntCol rk) →
  getitem left label = Ok c →
  (label = on ∨ label ∉ labels right) →
  (∀ k, k +:+ "_x" ≠ label) →
  getitem joined label = Ok (col_take (join_indexers lk rk).*1 c).
Proof.
  intros Hm Hl Hr Hc Hkeep Hsfx.
  rewrite (merge_run _ _ _ _ _ Hl Hr) in Hm. injection Hm as <-.
  unfold getitem in *. simpl. rewrite assoc_app.
  assert (suffixed "_x" (labels right) on label = label) as Hlabel.
  { destruct Hkeep as [->|?]; [apply suffixed_key | by apply suffixed_keep]. }
  rewrite <- Hlabel at 1. rewrite assoc_fmap_label.
  - destruct (assoc label (columns left)); [|done]. simpl. by inversion Hc.
  - intros k' _. rewrite Hlabel.
    destruct (suffixed_cases "_x" (labels right) on k') as [->| ->]; [done|].
    intros H. by destruct (Hsfx k').
Qed.

Lemma frame_wf_geom df label gs :
  frame_wf df → getitem df label = Ok (GeomCol gs) →
  length gs = length (index df).
Proof.
  intros [_ Hwf] Hget. apply getitem_Some_elem in Hget.
  rewrite Forall_forall in Hwf. by destruct (Hwf _ Hget) as [Hlen _].
Qed.

Lemma tablejoiner_step_run w folder format path grid table joined :
  spatial_files w grid_path None = Some grid →
  text_tables w path = Some table →
  merge grid (rename table "from_id" "YKR_ID") "YKR_ID" = Ok joined →
  tablejoiner_step folder format path w
  = (Ok (),
     if String.eqb format "shp"
     then add_written w
            [LayerFile [folder; slice_last 7 (stem path)] None None joined]
     else if String.eqb format "gpk"
          then add_written w
                 [LayerFile [folder; "TravelMatrix.gpkg"] (Some "GPKG")
                    (Some (slice_last 7 (stem path))) joined]
          else w).
Proof.
  intros Hgrid Htable Hmerge.
  unfold tablejoiner_step, mbind, M_bind, gpd_read_file, pd_read_csv, lift.
  rewrite Hgrid, Htable, Hmerge.
  destruct (String.eqb format "shp"); [done|].
  by destruct (String.eqb format "gpk").
Qed.

Lemma length_substring (s : string) :
  ∀ n m, String.length (String.substring n m s) = (m `min` (String.length s - n))%nat.
Proof.
  induction s as [|c s IH]; intros [|n] [|m]; simpl; try done.
  all: rewrite IH; simpl; lia.
Qed.

Lemma length_slice_last k s :
  String.length (slice_last k s) = (k `min` String.length s)%nat.
Proof. unfold slice_last. rewrite length_substring. lia. Qed.

Lemma tablejoiner_loop_gpk grid gids folder paths :
  getitem grid "YKR_ID" = Ok (IntCol gids) →
  ∀ w,
    spatial_files w grid_path None = Some grid →
    Forall (joinable w) paths →
    ∃ layers,
      tablejoiner_loop folder "gpk" paths w = (Ok (), add_written w layers) ∧
      Forall2 (λ path out,
                 ∃ table joined,
                   text_tables w path = Some table ∧
                   merge grid (rename table "from_id" "YKR_ID") "YKR_ID" = Ok joined ∧
                   out = LayerFile [folder; "TravelMatrix.gpkg"] (Some "GPKG")
                           (Some (slice_last 7 (stem path))) joined)
        paths layers.
Proof.
  intros Hkey. induction paths as [|path rest IH]; intros w Hgrid Hall.
  - exists []. split; [by rewrite add_written_nil | constructor].
  - apply Forall_cons in Hall as [(table & tids & Htable & Hfrom & Hfresh) Hrest].
    pose proof (getitem_rename _ _ _ _ Hfrom Hfresh) as Hright.
    pose proof (merge_run _ _ _ _ _ Hkey Hright) as Hmerge. simpl in Hmerge.
    match type of Hmerge with _ = Ok ?j => set (joined := j) in * end.
    destruct (IH (add_written w
                    [LayerFile [folder; "TravelMatrix.gpkg"] (Some "GPKG")
                       (Some (slice_last 7 (stem path))) joined]) Hgrid Hrest)
      as (layers & Hloop & Hlayers).
    eexists (_ :: layers). split.
    + simpl. unfold mbind, M_bind.
      rewrite (tablejoiner_step_run _ _ _ _ _ _ _ Hgrid Htable Hmerge). simpl.
      rewrite Hloop. by rewrite add_written_app.
    + constructor; [by eexists _, _|]. exact Hlayers.
Qed.

(** C4: [tablejoiner] renames [from_id] of the table to [YKR_ID] and merges
    the table into the grid, the grid on the left.  The layer it saves has
    a [YKR_ID] column whose values all occur both among the grid's
    identifiers and among the table's [from_id] values (and every
    identifier the two share does occur), and it keeps the [geometry]
    column: each row carries the identifier and the geometry of one and
    the same grid row. *)
Theorem tablejoiner_inner_join
    (w : World) (output_folder output_format : string) (path : Path)
    (grid table : DataFrame) (gids tids : list Z) (ggeo : list Geometry) :
  output_format = "shp" ∨ output_format = "gpk" →
  spatial_files w grid_path None = Some grid →
  text_tables w path = Some table →
  frame_wf grid →
  getitem grid "YKR_ID" = Ok (IntCol gids) →
  getitem grid "geometry" = Ok (GeomCol ggeo) →
  getitem table "from_id" = Ok (IntCol tids) →
  "YKR_ID" ∉ labels table →
  "geometry" ∉ labels table →
  ∃ joined target driver layer ids geoms,
    tablejoiner output_folder output_format [path] w
    = (Ok (), add_written w [LayerFile target driver layer joined]) ∧
    getitem (rename table "from_id" "YKR_ID") "YKR_ID" = Ok (IntCol tids) ∧
    merge grid (rename table "from_id" "YKR_ID") "YKR_ID" = Ok joined ∧
    getitem joined "YKR_ID" = Ok (IntCol ids) ∧
    getitem joined "geometry" = Ok (GeomCol geoms) ∧
    id_set ids ⊆ id_set gids ∩ id_set tids ∧
    id_set gids ∩ id_set tids ⊆ id_set ids ∧
    length geoms = length ids ∧
    ∀ r id geom,
      ids !! r = Some id → geoms !! r = Some geom →
      ∃ i, gids !! i = Some id ∧ ggeo !! i = Some geom.
Proof.
  intros Hformat Hgrid Htable Hwf Hkey Hgeo Hfrom Hfresh Hnogeo.
  pose proof (getitem_rename _ _ _ _ Hfrom Hfresh) as Hright.
  pose proof (merge_run _ _ _ _ _ Hkey Hright) as Hmerge. simpl in Hmerge.
  match type of Hmerge with _ = Ok ?j => set (joined := j) in * end.
  set (ps := (join_indexers gids tids).*1).
  assert (Forall (λ i, is_Some (gids !! i)) ps) as Hps by apply join_indexers_left.
  assert (Forall (λ i, is_Some (ggeo !! i)) ps) as Hps'.
  { eapply Forall_impl; [exact Hps|]. intros i Hi. simpl in Hi.
    apply lookup_lt_is_Some. apply lookup_lt_is_Some in Hi.
    destruct (frame_wf_int _ _ _ Hwf Hkey) as [_ Hlen].
    rewrite (frame_wf_geom _ _ _ Hwf Hgeo). by rewrite <- Hlen. }
  assert (∃ target driver layer,
            tablejoiner output_folder output_format [path] w
            = (Ok (), add_written w [LayerFile target driver layer joined]))
    as (target & driver & layer & Hrun).
  { unfold tablejoiner. simpl. unfold mbind, M_bind. simpl.
    rewrite (tablejoiner_step_run _ _ _ _ _ _ _ Hgrid Htable Hmerge).
    destruct Hformat as [-> | ->]; simpl; by eexists _, _, _. }
  exists joined, target, driver, layer, (take ps gids), (take ps ggeo).
  split; [done|]. split; [done|]. split; [done|].
  split.
  { apply (getitem_merge_left _ _ _ _ _ _ _ _ Hmerge Hkey Hright Hkey);
      [by left | apply append_x_not_key]. }
  split.
  { apply (getitem_merge_left _ _ _ _ _ _ _ _ Hmerge Hkey Hright Hgeo);
      [|apply append_x_not_geometry].
    right. by apply not_in_labels_rename. }
  split.
  { intros id. unfold id_set.
    rewrite elem_of_intersection, !elem_of_list_to_set. apply joined_ids. }
  split.
  { intros id. unfold id_set.
    rewrite elem_of_intersection, !elem_of_list_to_set. apply joined_ids. }
  split.
  { by rewrite !take_length. }
  intros r id geom. rewrite !take_lookup by done.
  destruct (ps !! r) as [i|]; simpl; [|done]. intros Hid Hgeom. by exists i.
Qed.

Lemma tablejoiner_inner_join_witness :
  ∃ joined target driver layer ids geoms,
    tablejoiner "out" "shp" [file_path "data" 5785640] Sample.world
    = (Ok (), add_written Sample.world [LayerFile target driver layer joined]) ∧
    getitem (rename Sample.table "from_id" "YKR_ID") "YKR_ID"
    = Ok (IntCol [5785641; 5785640; 9999999]) ∧
    merge Sample.grid (rename Sample.table "from_id" "YKR_ID") "YKR_ID"
    = Ok joined ∧
    getitem joined "YKR_ID" = Ok (IntCol ids) ∧
    getitem joined "geometry" = Ok (GeomCol geoms) ∧
    id_set ids ⊆ id_set Sample.grid_ids ∩ id_set [5785641; 5785640; 9999999] ∧
    id_set Sample.grid_ids ∩ id_set [5785641; 5785640; 9999999] ⊆ id_set ids ∧
    length geoms = length ids ∧
    ∀ r id geom,
      ids !! r = Some id → geoms !! r = Some geom →
      ∃ i, Sample.grid_ids !! i = Some id ∧
           [Sample.cell 0 0; Sample.cell 250 0; Sample.cell 500 0;
            Sample.cell 750 0] !! i = Some geom.
Proof.
  refine (tablejoiner_inner_join Sample.world "out" "shp"
            (file_path "data" 5785640) Sample.grid Sample.table
            Sample.grid_ids [5785641; 5785640; 9999999]
            [Sample.cell 0 0; Sample.cell 250 0; Sample.cell 500 0;
             Sample.cell 750 0]
            _ eq_refl eq_refl _ eq_refl eq_refl eq_refl _ _).
  - by left.
  - apply (bool_decide_unpack _). vm_compute. exact I.
  - apply (bool_decide_unpack _). vm_compute. exact I.
  - apply (bool_decide_unpack _). vm_compute. exact I.
Defined.



(** The layer names of the sample batch are the identifiers themselves. *)
Example sample_layer_names :
  slice_last 7 (stem (file_path "data" 5785640)) = str 5785640 ∧
  slice_last 7 (stem (file_path "data" 5785641)) = str 5785641.
Proof. split; reflexivity. Qed.

(* ================================================================== *)
(** * Further properties of filefinder *)

(** For output ['text'] [filefinder] returns [None] and saves, as the one
    column [file_paths] of [file_paths.txt], exactly the locations it
    returns for output ['list']; both runs print the same lines, and the
    ['list'] run saves nothing. *)
Theorem filefinder_text_manifest
    (w : World) (grid : DataFrame) (IDs ids : list Z) (folder_path : string) :
  ids ≠ [] →
  spatial_files w grid_path None = Some grid →
  getitem grid "YKR_ID" = Ok (IntCol IDs) →
  ∃ paths printed,
    filefinder ids folder_path "list" w
    = (Ok (PyList paths), add_stdout w printed) ∧
    filefinder ids folder_path "text" w
    = (Ok PyNone,
       add_written (add_stdout w printed)
         [CsvFile "file_paths.txt" "file_paths" paths]).
Proof.
  intros Hne Hgrid HIDs. eexists _, _. split.
  - by rewrite (filefinder_run w grid IDs ids folder_path "list").
  - by rewrite (filefinder_run w grid IDs ids folder_path "text").
Qed.

Lemma filefinder_text_manifest_witness :
  ∃ paths printed,
    filefinder Sample.request "data" "list" Sample.world
    = (Ok (PyList paths), add_stdout Sample.world printed) ∧
    filefinder Sample.request "data" "text" Sample.world
    = (Ok PyNone,
       add_written (add_stdout Sample.world printed)
         [CsvFile "file_paths.txt" "file_paths" paths]).
Proof.
  refine (filefinder_text_manifest Sample.world Sample.grid Sample.grid_ids
            Sample.request "data" _ eq_refl eq_refl).
  done.
Defined.

(** For an [output] that is neither ['list'] nor ['text'] [filefinder]
    still walks the whole request, printing one line per identifier, and
    then returns [None]: the locations it built are dropped and nothing is
    saved. *)
Theorem filefinder_other_output
    (w : World) (grid : DataFrame) (IDs ids : list Z)
    (folder_path output : string) :
  ids ≠ [] →
  spatial_files w grid_path None = Some grid →
  getitem grid "YKR_ID" = Ok (IntCol IDs) →
  output ≠ "list" →
  output ≠ "text" →
  ∃ printed,
    filefinder ids folder_path output w = (Ok PyNone, add_stdout w printed) ∧
    length printed = length ids ∧
    written (add_stdout w printed) = written w.
Proof.
  intros Hne Hgrid HIDs Hlist Htext.
  exists (report IDs folder_path (Z.of_nat (length ids)) ids 0).
  rewrite (filefinder_run w grid IDs ids folder_path output Hne Hgrid HIDs).
  destruct (String.eqb_spec output "list"); [done|].
  destruct (String.eqb_spec output "text"); [done|].
  split; [done|]. split; [apply report_length | done].
Qed.

Lemma filefinder_other_output_witness :
  ∃ printed,
    filefinder Sample.request "data" "csv" Sample.world
    = (Ok PyNone, add_stdout Sample.world printed) ∧
    length printed = length Sample.request ∧
    written (add_stdout Sample.world printed) = written Sample.world.
Proof.
  refine (filefinder_other_output Sample.world Sample.grid Sample.grid_ids
            Sample.request "data" "csv" _ eq_refl eq_refl _ _); done.
Defined.

(** When the grid shapefile cannot be read [filefinder] fails with the
    reader's error on a non-empty request, before it prints or saves
    anything. *)
Theorem filefinder_unreadable_grid
    (w : World) (ids : list Z) (folder_path output : string) :
  ids ≠ [] →
  spatial_files w grid_path None = None →
  filefinder ids folder_path output w = (Raise (DriverError grid_path), w).
Proof.
  intros Hne Hgrid.
  assert (Hlen : (0 <? length ids)%nat = true) by (by destruct ids).
  unfold filefinder. rewrite Hlen.
  unfold py_assert, mbind, M_bind, mret, M_ret, gpd_read_file.
  by rewrite Hgrid.
Qed.

Lemma filefinder_unreadable_grid_witness :
  filefinder Sample.request "data" "list" Cases.no_grid
  = (Raise (DriverError grid_path), Cases.no_grid).
Proof.
  refine (filefinder_unreadable_grid Cases.no_grid Sample.request "data" "list"
            _ eq_refl).
  done.
Defined.

(** When the grid has no [YKR_ID] column [filefinder] fails with
    [KeyError] on a non-empty request, before it prints or saves anything. *)
Theorem filefinder_unkeyed_grid
    (w : World) (grid : DataFrame) (ids : list Z) (folder_path output : string) :
  ids ≠ [] →
  spatial_files w grid_path None = Some grid →
  "YKR_ID" ∉ labels grid →
  filefinder ids folder_path output w = (Raise (KeyError "YKR_ID"), w).
Proof.
  intros Hne Hgrid Hkey.
  assert (Hlen : (0 <? length ids)%nat = true) by (by destruct ids).
  unfold filefinder. rewrite Hlen.
  unfold py_assert, mbind, M_bind, mret, M_ret, gpd_read_file, lift.
  by rewrite Hgrid, (getitem_missing _ _ Hkey).
Qed.

Lemma filefinder_unkeyed_grid_witness :
  filefinder Sample.request "data" "list" Cases.unkeyed
  = (Raise (KeyError "YKR_ID"), Cases.unkeyed).
Proof.
  refine (filefinder_unkeyed_grid Cases.unkeyed Cases.unkeyed_grid
            Sample.request "data" "list" _ eq_refl _).
  - done.
  - apply (bool_decide_unpack _). vm_compute. exact I.
Defined.

(* ================================================================== *)
(** * From the location of filefinder to the layer name of tablejoiner *)

Lemma rfind_dot_txt (s : string) :
  rfind "." (s +:+ ".txt") = Some (String.length s).
Proof. induction s as [|c s IH]; simpl; [done|]. by rewrite IH. Qed.

Lemma length_append (s t : string) :
  String.length (s +:+ t) = (String.length s + String.length t)%nat.
Proof. induction s as [|c s IH]; simpl; [done|]. by rewrite IH. Qed.

Lemma substring_whole (t : string) : String.substring 0 (String.length t) t = t.
Proof. induction t as [|c t IH]; simpl; [done|]. by rewrite IH. Qed.

Lemma substring_prefix (s t : string) :
  String.substring 0 (String.length s) (s +:+ t) = s.
Proof.
  induction s as [|c s IH]; simpl; [by destruct t|]. by rewrite IH.
Qed.

Lemma substring_skip (s t : string) (m : nat) :
  String.substring (String.length s) m (s +:+ t) = String.substring 0 m t.
Proof. induction s as [|c s IH]; simpl; [done|]. apply IH. Qed.

Lemma slice_last_suffix (s t : string) :
  slice_last (String.length t) (s +:+ t) = t.
Proof.
  unfold slice_last. rewrite length_append.
  replace (String.length s + String.length t - String.length t)%nat
    with (String.length s) by lia.
  by rewrite substring_skip, substring_whole.
Qed.

Lemma stem_txt (dir : list string) (s : string) :
  s ≠ "" → stem (dir ++ [s +:+ ".txt"]) = s.
Proof.
  intros Hs. unfold stem, name. rewrite List.last_last.
  rewrite rfind_dot_txt, length_append. simpl.
  destruct s as [|c s]; [done|]. simpl String.length.
  replace (0 <? S (String.length s))%nat with true by done.
  replace (S (String.length s) <? S (String.length s) + 4 - 1)%nat with true
    by (symmetry; apply Nat.ltb_lt; lia).
  simpl andb. cbv iota.
  apply (substring_prefix (String c s) ".txt").
Qed.

Lemma stem_file_path folder ID :
  stem (file_path folder ID) = "travel_times_to_ " +:+ str ID.
Proof.
  unfold file_path.
  change [folder; slice_to 4 (str ID) +:+ "xxx";
          "travel_times_to_ " +:+ str ID +:+ ".txt"]
    with ([folder; slice_to 4 (str ID) +:+ "xxx"]
            ++ [("travel_times_to_ " +:+ str ID) +:+ ".txt"]).
  by apply stem_txt.
Qed.

Ltac div_lia := zify; Z.to_euclidean_division_equations; lia.

(** The decimal form of a seven-digit identifier has seven characters. *)
Lemma str_length_7 (ID : Z) :
  1000000 <= ID <= 9999999 → String.length (str ID) = 7%nat.
Proof.
  intros H. destruct ID as [|p|p]; [lia| |lia].
  unfold str, pretty, pretty_Z, pretty, pretty_positive, pretty, pretty_N.
  assert (1000000 <= N.pos p <= 9999999)%N as Hp by lia.
  generalize dependent (N.pos p). clear H. intros x Hx.
  rewrite decide_False by lia.
  do 7 (rewrite pretty_N_go_step by div_lia).
  match goal with
  | |- context [pretty_N_go ?y _] => replace y with 0%N by div_lia
  end.
  by rewrite pretty_N_go_0.
Qed.

(** Whatever the folder and the identifier, the stem that [tablejoiner]
    takes from a location built by [filefinder] is [travel_times_to_],
    a blank, and the decimal identifier: the [.txt] suffix alone is cut,
    and dots in the folder name play no part. *)
Theorem stem_of_location (folder_path : string) (ID : Z) :
  stem (file_path folder_path ID) = "travel_times_to_ " +:+ str ID ∧
  name (file_path folder_path ID) = stem (file_path folder_path ID) +:+ ".txt".
Proof.
  split; [apply stem_file_path|].
  rewrite stem_file_path. unfold name, file_path. simpl.
  by destruct (pretty ID +:+ ".txt").
Qed.

(** The layer name [tablejoiner] derives from a location of [filefinder]
    always has seven characters, and it is the decimal identifier exactly
    when that has seven characters: a shorter identifier gets characters of
    the file-name prefix, a longer one loses its leading digits. *)
Theorem layer_name_fixed_length (folder_path : string) (ID : Z) :
  String.length (layer_name folder_path ID) = 7%nat ∧
  (layer_name folder_path ID = str ID ↔ String.length (str ID) = 7%nat).
Proof.
  unfold layer_name. rewrite stem_file_path.
  assert (String.length (slice_last 7 ("travel_times_to_ " +:+ str ID)) = 7%nat)
    as Hlen.
  { rewrite length_slice_last, length_append. simpl. lia. }
  split; [done|]. split.
  - intros Heq. by rewrite <- Heq.
  - intros H7. rewrite <- H7. apply slice_last_suffix.
Qed.

(** For a seven-digit identifier, as the identifiers of the grid are, the
    layer that [tablejoiner] saves for the location [filefinder] built is
    named by the identifier itself. *)
Theorem layer_name_seven_digits (folder_path : string) (ID : Z) :
  1000000 <= ID <= 9999999 →
  layer_name folder_path ID = str ID.
Proof.
  intros HID. unfold layer_name. rewrite stem_file_path.
  rewrite <- (str_length_7 ID HID). apply slice_last_suffix.
Qed.

Lemma layer_name_seven_digits_witness :
  layer_name "data" 5785640 = str 5785640.
Proof. apply (layer_name_seven_digits "data" 5785640). lia. Defined.

(* ================================================================== *)
(** * Further properties of tablejoiner *)

Lemma tablejoiner_step_saved w folder format path grid table joined :
  spatial_files w grid_path None = Some grid →
  text_tables w path = Some table →
  merge grid (rename table "from_id" "YKR_ID") "YKR_ID" = Ok joined →
  tablejoiner_step folder format path w
  = (Ok (), add_written w (saved_as folder format path joined)).
Proof.
  intros Hgrid Htable Hmerge.
  rewrite (tablejoiner_step_run _ _ _ _ _ _ _ Hgrid Htable Hmerge).
  unfold saved_as. destruct (String.eqb format "shp"); [done|].
  destruct (String.eqb format "gpk"); [done|]. by rewrite add_written_nil.
Qed.

(** The loop over locations that can all be joined, for any output format. *)
Lemma tablejoiner_loop_run grid gids folder format paths :
  getitem grid "YKR_ID" = Ok (IntCol gids) →
  ∀ w,
    spatial_files w grid_path None = Some grid →
    Forall (joinable w) paths →
    ∃ joins,
      Forall2 (λ path joined,
                 ∃ table,
                   text_tables w path = Some table ∧
                   merge grid (rename table "from_id" "YKR_ID") "YKR_ID"
                   = Ok joined)
        paths joins ∧
      tablejoiner_loop folder format paths w
      = (Ok (),
         add_written w (mjoin (zip_with (saved_as folder format) paths joins))).
Proof.
  intros Hkey. induction paths as [|path rest IH]; intros w Hgrid Hall.
  - exists []. split; [constructor | by rewrite add_written_nil].
  - apply Forall_cons in Hall as [(table & tids & Htable & Hfrom & Hfresh) Hrest].
    pose proof (getitem_rename _ _ _ _ Hfrom Hfresh) as Hright.
    pose proof (merge_run _ _ _ _ _ Hkey Hright) as Hmerge. simpl in Hmerge.
    match type of Hmerge with _ = Ok ?j => set (joined := j) in * end.
    destruct (IH (add_written w (saved_as folder format path joined)) Hgrid Hrest)
      as (joins & Hjoins & Hloop).
    exists (joined :: joins). split.
    + constructor; [by exists table | exact Hjoins].
    + simpl. unfold mbind, M_bind.
      rewrite (tablejoiner_step_saved _ _ _ _ _ _ _ Hgrid Htable Hmerge).
      rewrite Hloop. by rewrite add_written_app.
Qed.

Lemma tablejoiner_loop_app folder format l1 l2 w :
  tablejoiner_loop folder format (l1 ++ l2) w
  = match tablejoiner_loop folder format l1 w with
    | (Ok _, w') => tablejoiner_loop folder format l2 w'
    | (Raise e, w') => (Raise e, w')
    end.
Proof.
  revert w. induction l1 as [|path l1 IH]; intros w; simpl; [done|].
  unfold mbind, M_bind.
  destruct (tablejoiner_step folder format path w) as [[[]|e] w']; [apply IH|done].
Qed.

Lemma tablejoiner_nonempty folder format paths w :
  paths ≠ [] →
  tablejoiner folder format paths w = tablejoiner_loop folder format paths w.
Proof. intros Hne. by destruct paths. Qed.

(** On an empty list of locations [tablejoiner] stops at its assertion:
    neither the grid nor any table is read and nothing is saved, whatever
    the output format. *)
Theorem tablejoiner_empty (output_folder output_format : string) (w : World) :
  tablejoiner output_folder output_format [] w
  = (Raise (AssertionError
              "List is empty! List must contain at least one file path"),
     w).
Proof. reflexivity. Qed.

(** For an output format other than ['shp'] and ['gpk'] (also ['gpkg'], the
    name [visualiser] and [compare] use) [tablejoiner] reads and joins
    every location and returns normally, but saves nothing. *)
Theorem tablejoiner_other_format
    (w : World) (output_folder output_format : string) (paths : list Path)
    (grid : DataFrame) (gids : list Z) :
  paths ≠ [] →
  output_format ≠ "shp" →
  output_format ≠ "gpk" →
  spatial_files w grid_path None = Some grid →
  getitem grid "YKR_ID" = Ok (IntCol gids) →
  Forall (joinable w) paths →
  tablejoiner output_folder output_format paths w = (Ok (), w).
Proof.
  intros Hne Hshp Hgpk Hgrid Hkey Hall.
  rewrite tablejoiner_nonempty by done.
  destruct (tablejoiner_loop_run grid gids output_folder output_format paths
              Hkey w Hgrid Hall) as (joins & Hjoins & ->).
  replace (mjoin (zip_with (saved_as output_folder output_format) paths joins))
    with (@nil Output); [by rewrite add_written_nil|].
  clear -Hshp Hgpk. revert joins.
  induction paths as [|path rest IH]; intros [|joined joins]; simpl; try done.
  rewrite <- IH. unfold saved_as.
  destruct (String.eqb_spec output_format "shp"); [done|].
  by destruct (String.eqb_spec output_format "gpk").
Qed.

Lemma tablejoiner_other_format_witness :
  tablejoiner "out" "gpkg" [file_path "data" 5785640; file_path "data" 5785641]
    Sample.world
  = (Ok (), Sample.world).
Proof.
  refine (tablejoiner_other_format Sample.world "out" "gpkg"
            [file_path "data" 5785640; file_path "data" 5785641]
            Sample.grid Sample.grid_ids _ _ _ eq_refl eq_refl _); [done..|].
  repeat constructor;
    (exists Sample.table, [5785641; 5785640; 9999999];
     split; [reflexivity|]; split; [reflexivity|];
     apply (bool_decide_unpack _); vm_compute; exact I).
Defined.

(** For output format ['shp'] [tablejoiner] saves one file per location, in
    the order of the locations, each in the output folder under the last 7
    characters of the stem of the location's file name and without driver
    or layer name; the file holds the join of the grid with the table of
    that location. *)
Theorem tablejoiner_shp_files
    (w : World) (output_folder : string) (paths : list Path)
    (grid : DataFrame) (gids : list Z) :
  paths ≠ [] →
  spatial_files w grid_path None = Some grid →
  getitem grid "YKR_ID" = Ok (IntCol gids) →
  Forall (joinable w) paths →
  ∃ files,
    tablejoiner output_folder "shp" paths w = (Ok (), add_written w files) ∧
    Forall2 (λ path out,
               ∃ table joined,
                 text_tables w path = Some table ∧
                 merge grid (rename table "from_id" "YKR_ID") "YKR_ID" = Ok joined ∧
                 out = LayerFile [output_folder; slice_last 7 (stem path)]
                         None None joined)
      paths files.
Proof.
  intros Hne Hgrid Hkey Hall.
  rewrite tablejoiner_nonempty by done.
  destruct (tablejoiner_loop_run grid gids output_folder "shp" paths
              Hkey w Hgrid Hall) as (joins & Hjoins & ->).
  eexists. split; [done|].
  clear -Hjoins. induction Hjoins as [|path joined rest joins (table & ? & ?) _ IH].
  - constructor.
  - simpl. constructor; [by exists table, joined | exact IH].
Qed.

Lemma tablejoiner_shp_files_witness :
  ∃ files,
    tablejoiner "out" "shp" [file_path "data" 5785640; file_path "data" 5785641]
      Sample.world
    = (Ok (), add_written Sample.world files) ∧
    Forall2 (λ path out,
               ∃ table joined,
                 text_tables Sample.world path = Some table ∧
                 merge Sample.grid (rename table "from_id" "YKR_ID") "YKR_ID"
                 = Ok joined ∧
                 out = LayerFile ["out"; slice_last 7 (stem path)]
                         None None joined)
      [file_path "data" 5785640; file_path "data" 5785641] files.
Proof.
  refine (tablejoiner_shp_files Sample.world "out"
            [file_path "data" 5785640; file_path "data" 5785641]
            Sample.grid Sample.grid_ids _ eq_refl eq_refl _); [done|].
  repeat constructor;
    (exists Sample.table, [5785641; 5785640; 9999999];
     split; [reflexivity|]; split; [reflexivity|];
     apply (bool_decide_unpack _); vm_compute; exact I).
Defined.

(** A location whose table cannot be read stops the batch: [tablejoiner]
    raises the reader's error for that location, the layers of the
    locations before it stay saved, and the locations after it are not
    processed. *)
Theorem tablejoiner_missing_table_aborts
    (w : World) (output_folder : string) (before after : list Path) (bad : Path)
    (grid : DataFrame) (gids : list Z) :
  spatial_files w grid_path None = Some grid →
  getitem grid "YKR_ID" = Ok (IntCol gids) →
  Forall (joinable w) before →
  text_tables w bad = None →
  ∃ layers,
    tablejoiner output_folder "gpk" (before ++ bad :: after) w
    = (Raise (FileNotFoundError bad), add_written w layers) ∧
    Forall2 (λ path out,
               ∃ joined,
                 out = LayerFile [output_folder; "TravelMatrix.gpkg"] (Some "GPKG")
                         (Some (slice_last 7 (stem path))) joined)
      before layers.
Proof.
  intros Hgrid Hkey Hall Hbad.
  rewrite tablejoiner_nonempty by (by destruct before).
  rewrite tablejoiner_loop_app.
  destruct (tablejoiner_loop_run grid gids output_folder "gpk" before
              Hkey w Hgrid Hall) as (joins & Hjoins & ->).
  eexists. split.
  - simpl tablejoiner_loop.
    unfold mbind, M_bind, tablejoiner_step, mbind, M_bind,
      gpd_read_file, pd_read_csv.
    cbn [spatial_files add_written]. rewrite Hgrid.
    cbn [text_tables add_written]. by rewrite Hbad.
  - clear -Hjoins. induction Hjoins as [|path joined rest joins _ _ IH].
    + constructor.
    + simpl. constructor; [by exists joined | exact IH].
Qed.

Lemma tablejoiner_missing_table_aborts_witness :
  ∃ layers,
    tablejoiner "out" "gpk"
      ([file_path "data" 5785640]
         ++ file_path "data" 5785642 :: [file_path "data" 5785641])
      Sample.world
    = (Raise (FileNotFoundError (file_path "data" 5785642)),
       add_written Sample.world layers) ∧
    Forall2 (λ path out,
               ∃ joined,
                 out = LayerFile ["out"; "TravelMatrix.gpkg"] (Some "GPKG")
                         (Some (slice_last 7 (stem path))) joined)
      [file_path "data" 5785640] layers.
Proof.
  refine (tablejoiner_missing_table_aborts Sample.world "out"
            [file_path "data" 5785640] [file_path "data" 5785641]
            (file_path "data" 5785642) Sample.grid Sample.grid_ids
            eq_refl eq_refl _ eq_refl).
  repeat constructor;
    (exists Sample.table, [5785641; 5785640; 9999999];
     split; [reflexivity|]; split; [reflexivity|];
     apply (bool_decide_unpack _); vm_compute; exact I).
Defined.

(** When the grid shapefile cannot be read [tablejoiner] fails at the first
    location with the reader's error; no table is looked at and nothing is
    saved. *)
Theorem tablejoiner_unreadable_grid
    (w : World) (output_folder output_format : string) (paths : list Path) :
  paths ≠ [] →
  spatial_files w grid_path None = None →
  tablejoiner output_folder output_format paths w
  = (Raise (DriverError grid_path), w).
Proof.
  intros Hne Hgrid. rewrite tablejoiner_nonempty by done.
  destruct paths as [|path rest]; [done|]. simpl.
  unfold mbind, M_bind, tablejoiner_step, mbind, M_bind, gpd_read_file.
  by rewrite Hgrid.
Qed.

Lemma tablejoiner_unreadable_grid_witness :
  tablejoiner "out" "gpk" [file_path "data" 5785640] Cases.no_grid
  = (Raise (DriverError grid_path), Cases.no_grid).
Proof.
  refine (tablejoiner_unreadable_grid Cases.no_grid "out" "gpk"
            [file_path "data" 5785640] _ eq_refl).
  done.
Defined.

(* ================================================================== *)
(** * The joined layer *)

Lemma join_indexers_right `{EqDecision A} (lk rk : list A) :
  Forall (λ j, is_Some (rk !! j)) (join_indexers lk rk).*2.
Proof.
  apply Forall_forall. intros j Hj.
  apply list_elem_of_fmap in Hj as ([i j'] & -> & Hin).
  apply elem_of_join_indexers in Hin as (k & _ & Hk). by exists k.
Qed.

Lemma take_Forall {A} (P : A → Prop) (ps : list nat) (l : list A) :
  Forall P l → Forall P (take ps l).
Proof.
  rewrite !Forall_forall. intros Hl x Hx.
  apply elem_of_take in Hx as (i & _ & Hi). apply Hl.
  apply list_elem_of_lookup. by exists i.
Qed.

Lemma col_take_wf (ps : list nat) (n : nat) (c : Column) :
  Forall (λ i, (i < n)%nat) ps → col_wf n c → col_wf (length ps) (col_take ps c).
Proof.
  intros Hps [Hlen Hcells].
  assert (∀ {A} (l : list A), length l = n → Forall (λ i, is_Some (l !! i)) ps)
    as Hsome.
  { intros A l Hl. eapply Forall_impl; [exact Hps|].
    intros i Hi. apply lookup_lt_is_Some. simpl in Hi. lia. }
  destruct c as [xs|ss|gs]; simpl in *; split;
    try (by apply take_length, Hsome); try done.
  by apply take_Forall.
Qed.

Lemma rectangular_rename df old new :
  rectangular df → rectangular (rename df old new).
Proof.
  unfold rectangular, rename. simpl. intros H.
  apply Forall_fmap. eapply Forall_impl; [exact H|]. by intros [k c].
Qed.

Lemma rectangular_getitem df label c :
  rectangular df → getitem df label = Ok c → col_wf (length (index df)) c.
Proof.
  intros Hwf Hget. apply getitem_Some_elem in Hget.
  unfold rectangular in Hwf. rewrite Forall_forall in Hwf. apply (Hwf _ Hget).
Qed.

Lemma merge_rectangular left right on lk rk joined :
  rectangular left → rectangular right →
  getitem left on = Ok (IntCol lk) →
  getitem right on = Ok (IntCol rk) →
  merge left right on = Ok joined →
  rectangular joined ∧
  length (index joined) = length (join_indexers lk rk).
Proof.
  intros Hl Hr Hlk Hrk Hm.
  rewrite (merge_run _ _ _ _ _ Hlk Hrk) in Hm. injection Hm as <-.
  set (ix := join_indexers lk rk).
  assert (length (Z.of_nat <$> seq 0 (length ix)) = length ix) as Hix.
  { by rewrite length_fmap, length_seq. }
  split; [|done]. unfold rectangular. simpl. rewrite Hix.
  destruct (rectangular_getitem _ _ _ Hl Hlk) as [Hllen _].
  destruct (rectangular_getitem _ _ _ Hr Hrk) as [Hrlen _].
  simpl in Hllen, Hrlen.
  apply Forall_app. split.
  - apply Forall_fmap. eapply Forall_impl; [exact Hl|].
    intros [k c] Hc. simpl in *.
    replace (length ix) with (length ix.*1) by apply length_fmap.
    apply (col_take_wf _ (length (index left))); [|done].
    eapply Forall_impl; [apply join_indexers_left|].
    intros i Hi. simpl in Hi. apply lookup_lt_is_Some in Hi. by rewrite <- Hllen.
  - apply Forall_fmap. apply Forall_forall. intros [k c] Hin.
    apply list_elem_of_filter in Hin as [_ Hin]. simpl.
    unfold rectangular in Hr. rewrite Forall_forall in Hr.
    replace (length ix) with (length ix.*2) by apply length_fmap.
    apply (col_take_wf _ (length (index right))); [|by apply (Hr _ Hin)].
    eapply Forall_impl; [apply join_indexers_right|].
    intros i Hi. simpl in Hi. apply lookup_lt_is_Some in Hi. by rewrite <- Hrlen.
Qed.

Lemma length_filter_imap `{EqDecision A} (k : A) (rk : list A) :
  ∀ g : nat → A → nat * A,
    (∀ j x, (g j x).2 = x) →
    length (filter (λ jk : nat * A, jk.2 = k) (imap g rk))
    = length (filter (λ x, x = k) rk).
Proof.
  induction rk as [|x rk IH]; intros g Hg; [done|].
  rewrite imap_cons, !filter_cons, Hg.
  specialize (IH (g ∘ S) (λ j y, Hg (S j) y)).
  destruct (decide (x = k)); simpl; by rewrite IH.
Qed.

Lemma length_matches `{EqDecision A} (k : A) (rk : list A) :
  length (matches k rk) = length (filter (λ x, x = k) rk).
Proof.
  unfold matches. rewrite length_fmap. by apply length_filter_imap.
Qed.

Lemma length_mjoin_imap {A B} (c : A → nat) (l : list A) :
  ∀ g : nat → A → list B,
    (∀ i k, length (g i k) = c k) →
    length (mjoin (imap g l)) = sum_list (c <$> l).
Proof.
  induction l as [|k l IH]; intros g Hg; [done|].
  rewrite imap_cons. simpl. rewrite length_app, Hg.
  by rewrite (IH (g ∘ S)) by (intros i y; apply Hg).
Qed.

Lemma length_join_indexers `{EqDecision A} (lk rk : list A) :
  length (join_indexers lk rk)
  = sum_list ((λ k, length (filter (λ x, x = k) rk)) <$> lk).
Proof.
  unfold join_indexers. apply length_mjoin_imap.
  intros i k. by rewrite length_fmap, length_matches.
Qed.

Lemma length_filter_in_cons `{EqDecision A} (k : A) (lk rk : list A) :
  k ∉ lk →
  length (filter (λ x, x ∈ k :: lk) rk)
  = (length (filter (λ x, x = k) rk) + length (filter (λ x, x ∈ lk) rk))%nat.
Proof.
  intros Hk. induction rk as [|x rk IH]; [done|].
  rewrite !filter_cons.
  destruct (decide (x = k)) as [->|Hne].
  - rewrite decide_True by left. rewrite decide_False by done. simpl. lia.
  - destruct (decide (x ∈ lk)) as [Hin|Hnin].
    + rewrite decide_True by (by right). simpl. lia.
    + rewrite decide_False; [lia|]. rewrite elem_of_cons. by intros [?|?].
Qed.

Lemma join_count `{EqDecision A} (lk rk : list A) :
  NoDup lk →
  length (join_indexers lk rk) = length (filter (λ x, x ∈ lk) rk).
Proof.
  intros Hnd. rewrite length_join_indexers.
  induction Hnd as [|k lk Hk Hnd IH]; simpl.
  - induction rk as [|x rk IHrk]; [done|]. rewrite filter_cons.
    by rewrite decide_False by apply not_elem_of_nil.
  - rewrite length_filter_in_cons by done. by rewrite <- IH.
Qed.

(** The frame [tablejoiner] builds from a rectangular grid and a
    rectangular table is rectangular again: every column, from the grid or
    from the table, has one cell per joined row, and its integer cells are
    cells of the inputs, so they still fit 64 bits. *)
Theorem joined_layer_rectangular
    (grid table : DataFrame) (gids tids : list Z) :
  rectangular grid →
  rectangular table →
  getitem grid "YKR_ID" = Ok (IntCol gids) →
  getitem table "from_id" = Ok (IntCol tids) →
  "YKR_ID" ∉ labels table →
  ∃ joined,
    merge grid (rename table "from_id" "YKR_ID") "YKR_ID" = Ok joined ∧
    rectangular joined ∧
    length (index joined) = length (join_indexers gids tids) ∧
    index joined = Z.of_nat <$> seq 0 (length (index joined)).
Proof.
  intros Hgrid Htable Hkey Hfrom Hfresh.
  pose proof (getitem_rename _ _ _ _ Hfrom Hfresh) as Hright.
  pose proof (merge_run _ _ _ _ _ Hkey Hright) as Hmerge. simpl in Hmerge.
  eexists. split; [exact Hmerge|].
  destruct (merge_rectangular _ _ _ _ _ _ Hgrid
              (rectangular_rename _ "from_id" "YKR_ID" Htable)
              Hkey Hright Hmerge) as [Hrect Hlen].
  split; [exact Hrect|]. split; [exact Hlen|].
  simpl. by rewrite length_fmap, length_seq.
Qed.

Lemma joined_layer_rectangular_witness :
  ∃ joined,
    merge Sample.grid (rename Sample.table "from_id" "YKR_ID") "YKR_ID"
    = Ok joined ∧
    rectangular joined ∧
    length (index joined)
    = length (join_indexers Sample.grid_ids [5785641; 5785640; 9999999]) ∧
    index joined = Z.of_nat <$> seq 0 (length (index joined)).
Proof.
  refine (joined_layer_rectangular Sample.grid Sample.table Sample.grid_ids
            [5785641; 5785640; 9999999] _ _ eq_refl eq_refl _);
    apply (bool_decide_unpack _); vm_compute; exact I.
Defined.

(** When the identifiers of the grid are distinct, the join keeps each
    row of the table whose [from_id] is a grid identifier exactly once and
    no other row: the joined layer has as many rows as the table has such
    rows. *)
Theorem joined_row_count
    (grid table : DataFrame) (gids tids : list Z) :
  NoDup gids →
  getitem grid "YKR_ID" = Ok (IntCol gids) →
  getitem table "from_id" = Ok (IntCol tids) →
  "YKR_ID" ∉ labels table →
  ∃ joined ids,
    merge grid (rename table "from_id" "YKR_ID") "YKR_ID" = Ok joined ∧
    getitem joined "YKR_ID" = Ok (IntCol ids) ∧
    length ids = length (filter (λ t, t ∈ gids) tids) ∧
    length (index joined) = length ids.
Proof.
  intros Hnd Hkey Hfrom Hfresh.
  pose proof (getitem_rename _ _ _ _ Hfrom Hfresh) as Hright.
  pose proof (merge_run _ _ _ _ _ Hkey Hright) as Hmerge. simpl in Hmerge.
  eexists _, (take (join_indexers gids tids).*1 gids).
  split; [exact Hmerge|].
  assert (length (take (join_indexers gids tids).*1 gids)
          = length (filter (λ t, t ∈ gids) tids)) as Hlen.
  { rewrite take_length by apply join_indexers_left.
    rewrite length_fmap. by apply join_count. }
  split.
  { apply (getitem_merge_left _ _ _ _ _ _ _ _ Hmerge Hkey Hright Hkey);
      [by left | apply append_x_not_key]. }
  split; [exact Hlen|].
  simpl. rewrite length_fmap, length_seq, Hlen. by apply join_count.
Qed.

Lemma joined_row_count_witness :
  ∃ joined ids,
    merge Sample.grid (rename Sample.table "from_id" "YKR_ID") "YKR_ID"
    = Ok joined ∧
    getitem joined "YKR_ID" = Ok (IntCol ids) ∧
    length ids
    = length (filter (λ t, t ∈ Sample.grid_ids) [5785641; 5785640; 9999999]) ∧
    length (index joined) = length ids.
Proof.
  refine (joined_row_count Sample.grid Sample.table Sample.grid_ids
            [5785641; 5785640; 9999999] _ eq_refl eq_refl _);
    apply (bool_decide_unpack _); vm_compute; exact I.
Defined.

(* ================================================================== *)
(** * Further properties of compare *)

Lemma read_input_Some file path YKR_ID w data :
  read_input file path YKR_ID w = (Ok (Some data), w) →
  file = "shp" ∨ file = "gpkg".
Proof.
  unfold read_input.
  destruct (String.eqb_spec file "shp"); [by left|].
  destruct (String.eqb_spec file "gpkg"); [by right|]. done.
Qed.

(** For two distinct numeric columns of a readable layer that has a
    geometry, [compare] returns normally and saves exactly one layer, the
    layer as it was read: for ['shp'] under the input path followed by
    [\Acessibility_<YKR_ID>_<A>_vs_<B>.shp], for ['gpkg'] as layer [YKR_ID]
    of [Acessibility_<YKR_ID>_<A>_vs_<B>.gpkg] in the working directory. *)
Theorem compare_saves_layer_as_read
    (w : World) (file YKR_ID path A B : string) (data : DataFrame)
    (xs ys : list Z) (g : Column) :
  read_input file path YKR_ID w = (Ok (Some data), w) →
  A ≠ B →
  getitem data A = Ok (IntCol xs) →
  getitem data B = Ok (IntCol ys) →
  getitem data "geometry" = Ok g →
  (file = "shp" ∧
   compare file YKR_ID path [A; B] w
   = (Ok (),
      add_written w
        [LayerFile
           [path +:+ "\Acessibility_" +:+ YKR_ID +:+ "_" +:+ A +:+ "_vs_"
              +:+ B +:+ ".shp"]
           None None data])) ∨
  (file = "gpkg" ∧
   compare file YKR_ID path [A; B] w
   = (Ok (),
      add_written w
        [LayerFile
           ["Acessibility_" +:+ YKR_ID +:+ "_" +:+ A +:+ "_vs_" +:+ B +:+ ".gpkg"]
           (Some "GPKG") (Some YKR_ID) data])).
Proof.
  intros Hread Hne HA HB Hg.
  pose proof (compare_selection_run data A B xs ys g Hne HA HB Hg) as Hsel.
  simpl in Hsel.
  unfold compare, mbind, M_bind. rewrite Hread. simpl. unfold lift.
  rewrite Hsel. simpl.
  destruct (read_input_Some _ _ _ _ _ Hread) as [-> | ->]; [left|right];
    by split.
Qed.

Lemma compare_saves_layer_as_read_witness :
  ("gpkg" = "shp" ∧
   compare "gpkg" "5785640" "TravelMatrix.gpkg" ["car_r_t"; "pt_r_t"] Sample.world
   = (Ok (),
      add_written Sample.world
        [LayerFile
           ["TravelMatrix.gpkg" +:+ "\Acessibility_" +:+ "5785640" +:+ "_"
              +:+ "car_r_t" +:+ "_vs_" +:+ "pt_r_t" +:+ ".shp"]
           None None Sample.layer])) ∨
  ("gpkg" = "gpkg" ∧
   compare "gpkg" "5785640" "TravelMatrix.gpkg" ["car_r_t"; "pt_r_t"] Sample.world
   = (Ok (),
      add_written Sample.world
        [LayerFile
           ["Acessibility_" +:+ "5785640" +:+ "_" +:+ "car_r_t" +:+ "_vs_"
              +:+ "pt_r_t" +:+ ".gpkg"]
           (Some "GPKG") (Some "5785640") Sample.layer])).
Proof.
  refine (compare_saves_layer_as_read Sample.world "gpkg" "5785640"
            "TravelMatrix.gpkg" "car_r_t" "pt_r_t" Sample.layer
            [15; -1; 20; 0] [25; 30; -1; 7]
            (GeomCol [Sample.cell 0 0; Sample.cell 250 0;
                      Sample.cell 500 0; Sample.cell 750 0])
            eq_refl _ eq_refl eq_refl eq_refl).
  done.
Defined.

(** With fewer than two mode names [compare] fails with [IndexError] once
    the layer is read: at once for an empty list, and for a single numeric
    column when the second name is looked up; nothing is saved. *)
Theorem compare_too_few_modes
    (w : World) (file YKR_ID path : string) (data : DataFrame) :
  read_input file path YKR_ID w = (Ok (Some data), w) →
  compare file YKR_ID path [] w = (Raise IndexError, w) ∧
  ∀ a xs,
    getitem data a = Ok (IntCol xs) →
    compare file YKR_ID path [a] w = (Raise IndexError, w).
Proof.
  intros Hread. split.
  - unfold compare, mbind, M_bind. by rewrite Hread.
  - intros a xs Ha. unfold compare, mbind, M_bind. rewrite Hread. simpl.
    unfold lift, compare_selection. simpl. by rewrite Ha.
Qed.

Lemma compare_too_few_modes_witness :
  compare "shp" "5785640" "layers\5785640.shp" [] Sample.world
  = (Raise IndexError, Sample.world) ∧
  ∀ a xs,
    getitem Sample.layer a = Ok (IntCol xs) →
    compare "shp" "5785640" "layers\5785640.shp" [a] Sample.world
    = (Raise IndexError, Sample.world).
Proof.
  exact (compare_too_few_modes Sample.world "shp" "5785640" "layers\5785640.shp"
           Sample.layer eq_refl).
Defined.

(** When the layer cannot be read (the shapefile for ['shp'], the layer
    named [YKR_ID] of the geopackage for ['gpkg']) [visualiser] and
    [compare] fail with the reader's error and save nothing. *)
Theorem unreadable_layer_fails
    (w : World) (file path YKR_ID mode output map : string) (list : list string) :
  (file = "shp" ∧ spatial_files w path None = None) ∨
  (file = "gpkg" ∧ spatial_files w path (Some YKR_ID) = None) →
  visualiser file path YKR_ID mode output map w = (Raise (DriverError path), w) ∧
  compare file YKR_ID path list w = (Raise (DriverError path), w).
Proof.
  intros [[-> Hnone] | [-> Hnone]];
    unfold visualiser, compare, read_input, mbind, M_bind, gpd_read_file; simpl;
    by rewrite Hnone.
Qed.

Lemma unreadable_layer_fails_witness :
  visualiser "gpkg" "TravelMatrix.gpkg" "5785641" "car_r_t" "maps\" "static"
    Sample.world
  = (Raise (DriverError "TravelMatrix.gpkg"), Sample.world) ∧
  compare "gpkg" "5785641" "TravelMatrix.gpkg" ["car_r_t"; "pt_r_t"] Sample.world
  = (Raise (DriverError "TravelMatrix.gpkg"), Sample.world).
Proof.
  refine (unreadable_layer_fails Sample.world "gpkg" "TravelMatrix.gpkg"
            "5785641" "car_r_t" "maps\" "static" ["car_r_t"; "pt_r_t"] _).
  right. split; reflexivity.
Defined.

Lemma rows2_both_valid (labels : list Z) :
  ∀ xs ys,
    rows2 (mask_filter (both_valid xs ys) labels)
      (mask_filter (both_valid xs ys) xs) (mask_filter (both_valid xs ys) ys)
    = filter (λ r, 0 <= r.2.1 ∧ 0 <= r.2.2) (rows2 labels xs ys).
Proof.
  unfold rows2, both_valid.
  induction labels as [|l labels IH]; intros [|x xs] [|y ys]; simpl; try done.
  rewrite filter_cons. simpl.
  destruct (Z.leb_spec 0 x), (Z.leb_spec 0 y); simpl.
  - rewrite decide_True by done. f_equal. apply IH.
  - rewrite decide_False by lia. apply IH.
  - rewrite decide_False by lia. apply IH.
  - rewrite decide_False by lia. apply IH.
Qed.

(** The selection [compare] computes before saving keeps exactly the rows
    of the layer whose two mode values are both at least 0, in their order
    and under their index labels, so no no-data value is left in either
    mode column; its columns are the two modes, the geometry and [diff]. *)
Theorem compare_selection_rows
    (data : DataFrame) (A B : string) (xs ys : list Z) (g : Column) :
  A ≠ B →
  A ≠ "diff" →
  B ≠ "diff" →
  getitem data A = Ok (IntCol xs) →
  getitem data B = Ok (IntCol ys) →
  getitem data "geometry" = Ok g →
  ∃ sel va vb,
    compare_selection data [A; B] = Ok sel ∧
    labels sel = [A; B; "geometry"; "diff"] ∧
    getitem sel A = Ok (IntCol va) ∧
    getitem sel B = Ok (IntCol vb) ∧
    rows2 (index sel) va vb
    = filter (λ r, 0 <= r.2.1 ∧ 0 <= r.2.2) (rows2 (index data) xs ys) ∧
    Forall (λ a, 0 <= a) va ∧
    Forall (λ b, 0 <= b) vb.
Proof.
  intros Hne HAd HBd HA HB Hg.
  pose proof (compare_selection_run data A B xs ys g Hne HA HB Hg) as Hsel.
  simpl in Hsel.
  eexists _, (mask_filter (both_valid xs ys) xs),
    (mask_filter (both_valid xs ys) ys).
  split; [exact Hsel|].
  assert (String.eqb A "diff" = false) as HAd' by (by apply String.eqb_neq).
  assert (String.eqb B "diff" = false) as HBd' by (by apply String.eqb_neq).
  split.
  { unfold labels, setitem. simpl. by rewrite HAd', HBd'. }
  split.
  { rewrite getitem_setitem_ne by done. unfold getitem. simpl.
    by rewrite String.eqb_refl. }
  split.
  { rewrite getitem_setitem_ne by done. unfold getitem. simpl.
    destruct (String.eqb_spec A B) as [?|_]; [done|]. by rewrite String.eqb_refl. }
  split; [apply rows2_both_valid|].
  apply valid_rows_ge0.
Qed.

Lemma compare_selection_rows_witness :
  ∃ sel va vb,
    compare_selection Sample.layer ["car_r_t"; "pt_r_t"] = Ok sel ∧
    labels sel = ["car_r_t"; "pt_r_t"; "geometry"; "diff"] ∧
    getitem sel "car_r_t" = Ok (IntCol va) ∧
    getitem sel "pt_r_t" = Ok (IntCol vb) ∧
    rows2 (index sel) va vb
    = filter (λ r, 0 <= r.2.1 ∧ 0 <= r.2.2)
        (rows2 (index Sample.layer) [15; -1; 20; 0] [25; 30; -1; 7]) ∧
    Forall (λ a, 0 <= a) va ∧
    Forall (λ b, 0 <= b) vb.
Proof.
  refine (compare_selection_rows Sample.layer "car_r_t" "pt_r_t"
            [15; -1; 20; 0] [25; 30; -1; 7]
            (GeomCol [Sample.cell 0 0; Sample.cell 250 0;
                      Sample.cell 500 0; Sample.cell 750 0])
            _ _ _ eq_refl eq_refl eq_refl); done.
Defined.

(* ================================================================== *)
(** * Further properties of visualiser *)

Lemma mask_filter_ge0 (xs : list Z) :
  mask_filter (map (λ x, 0 <=? x) xs) xs = filter (λ x, 0 <= x) xs.
Proof.
  induction xs as [|x xs IH]; simpl; [done|]. rewrite filter_cons.
  destruct (Z.leb_spec 0 x).
  - rewrite decide_True by done. by rewrite IH.
  - rewrite decide_False by lia. exact IH.
Qed.

Lemma visualiser_selection_run data mode xs g :
  getitem data mode = Ok (IntCol xs) →
  getitem data "geometry" = Ok g →
  let mask := map (λ x, 0 <=? x) xs in
  visualiser_selection data mode
  = Ok {| index := mask_filter mask (index data);
          columns := [(mode, IntCol (mask_filter mask xs));
                      ("geometry", col_filter mask g)] |}.
Proof.
  intros Hmode Hg mask. unfold visualiser_selection. rewrite Hmode. simpl.
  fold mask. unfold getitem_list. simpl.
  by rewrite (getitem_loc _ _ _ _ Hmode), (getitem_loc _ _ _ _ Hg).
Qed.

(** The layer [visualiser] hands to the renderer holds the mode column and
    the geometry only, and the mode column is the layer's column with its
    negative cells removed, in order: no no-data value reaches the map. *)
Theorem visualiser_selection_no_sentinel
    (data : DataFrame) (mode : string) (xs : list Z) (g : Column) :
  getitem data mode = Ok (IntCol xs) →
  getitem data "geometry" = Ok g →
  ∃ sel,
    visualiser_selection data mode = Ok sel ∧
    labels sel = [mode; "geometry"] ∧
    getitem sel mode = Ok (IntCol (filter (λ x, 0 <= x) xs)) ∧
    index sel = mask_filter (map (λ x, 0 <=? x) xs) (index data).
Proof.
  intros Hmode Hg.
  pose proof (visualiser_selection_run data mode xs g Hmode Hg) as Hsel.
  simpl in Hsel. eexists. split; [exact Hsel|].
  split; [done|]. split; [|done].
  unfold getitem. simpl. by rewrite String.eqb_refl, mask_filter_ge0.
Qed.

Lemma visualiser_selection_no_sentinel_witness :
  ∃ sel,
    visualiser_selection Sample.layer "pt_r_t" = Ok sel ∧
    labels sel = ["pt_r_t"; "geometry"] ∧
    getitem sel "pt_r_t" = Ok (IntCol (filter (λ x, 0 <= x) [25; 30; -1; 7])) ∧
    index sel = mask_filter (map (λ x, 0 <=? x) [25; 30; -1; 7])
                  (index Sample.layer).
Proof.
  exact (visualiser_selection_no_sentinel Sample.layer "pt_r_t" [25; 30; -1; 7]
           (GeomCol [Sample.cell 0 0; Sample.cell 250 0;
                     Sample.cell 500 0; Sample.cell 750 0])
           eq_refl eq_refl).
Defined.






(** [visualiser] converts [YKR_ID] with [int]: when it is not the text of an
    integer the call fails with [ValueError] after the layer and the grid
    have been read, and no map is saved. *)
Theorem visualiser_bad_identifier
    (w : World) (file path YKR_ID mode output kind : string)
    (data grid : DataFrame) (xs : list Z) (g ids : Column) :
  read_input file path YKR_ID w = (Ok (Some data), w) →
  getitem data mode = Ok (IntCol xs) →
  getitem data "geometry" = Ok g →
  spatial_files w grid_path None = Some grid →
  getitem grid "YKR_ID" = Ok ids →
  py_int YKR_ID = Raise ValueError →
  visualiser file path YKR_ID mode output kind w = (Raise ValueError, w).
Proof.
  intros Hread Hmode Hg Hgrid Hids Hint.
  pose proof (visualiser_selection_run data mode xs g Hmode Hg) as Hsel.
  simpl in Hsel.
  unfold visualiser, mbind, M_bind. rewrite Hread. simpl.
  unfold lift, gpd_read_file. by rewrite Hsel, Hgrid, Hids, Hint.
Qed.

Lemma visualiser_bad_identifier_witness :
  visualiser "shp" "layers\5785640.shp" "cell 5785640" "pt_r_t" "maps\" "static"
    Sample.world
  = (Raise ValueError, Sample.world).
Proof.
  exact (visualiser_bad_identifier Sample.world "shp" "layers\5785640.shp"
           "cell 5785640" "pt_r_t" "maps\" "static" Sample.layer Sample.grid
           [25; 30; -1; 7]
           (GeomCol [Sample.cell 0 0; Sample.cell 250 0;
                     Sample.cell 500 0; Sample.cell 750 0])
           (IntCol Sample.grid_ids)
           eq_refl eq_refl eq_refl eq_refl eq_refl eq_refl).
Defined.

(* ================================================================== *)
(** * filefinder followed by tablejoiner *)

Lemma filter_all {A} (P : A → Prop) `{∀ x, Decision (P x)} (l : list A) :
  Forall P l → filter P l = l.
Proof.
  induction 1 as [|x l Hx Hl IH]; [done|].
  rewrite filter_cons, decide_True by done. by rewrite IH.
Qed.

Lemma location_layer_name folder ID :
  1000000 <= ID <= 9999999 →
  slice_last 7 (stem (file_path folder ID)) = str ID.
Proof.
  intros HID. rewrite stem_file_path.
  rewrite <- (str_length_7 ID HID). apply slice_last_suffix.
Qed.

(** Resolving seven-digit identifiers that are all in the grid and then
    joining the locations returned: when every location has a table that
    can be joined, the geopackage receives one layer per requested
    identifier, in the order of the request, each named by the decimal
    identifier. *)
Theorem resolve_then_join
    (w : World) (grid : DataFrame) (IDs ids : list Z)
    (folder_path output_folder : string) :
  ids ≠ [] →
  spatial_files w grid_path None = Some grid →
  getitem grid "YKR_ID" = Ok (IntCol IDs) →
  Forall (λ ID, ID ∈ IDs) ids →
  Forall (λ ID, 1000000 <= ID <= 9999999) ids →
  Forall (λ ID, joinable w (file_path folder_path ID)) ids →
  ∃ printed layers,
    filefinder ids folder_path "list" w
    = (Ok (PyList (file_path folder_path <$> ids)), add_stdout w printed) ∧
    tablejoiner output_folder "gpk" (file_path folder_path <$> ids)
      (add_stdout w printed)
    = (Ok (), add_written (add_stdout w printed) layers) ∧
    Forall2 (λ ID out,
               ∃ joined,
                 out = LayerFile [output_folder; "TravelMatrix.gpkg"]
                         (Some "GPKG") (Some (str ID)) joined)
      ids layers.
Proof.
  intros Hne Hgrid Hkey Hin Hseven Hjoin.
  exists (report IDs folder_path (Z.of_nat (length ids)) ids 0).
  set (w1 := add_stdout w (report IDs folder_path (Z.of_nat (length ids)) ids 0)).
  assert (Forall (joinable w1) (file_path folder_path <$> ids)) as Hjoin1.
  { apply Forall_fmap. eapply Forall_impl; [exact Hjoin|]. by intros ID HID. }
  destruct (tablejoiner_loop_gpk grid IDs output_folder
              (file_path folder_path <$> ids) Hkey w1 Hgrid Hjoin1)
    as (layers & Hloop & Hlayers).
  exists layers. split.
  { rewrite (filefinder_run w grid IDs ids folder_path "list" Hne Hgrid Hkey).
    simpl. by rewrite (filter_all _ _ Hin). }
  split.
  { rewrite tablejoiner_nonempty by (by destruct ids). exact Hloop. }
  apply Forall2_fmap_l in Hlayers.
  clear -Hlayers Hseven. revert layers Hlayers.
  induction Hseven as [|ID rest HID _ IH]; intros layers Hlayers.
  - apply Forall2_nil_inv_l in Hlayers as ->. constructor.
  - apply Forall2_cons_inv_l in Hlayers as (out & layers' & Hout & Hrest & ->).
    constructor; [|by apply IH].
    destruct Hout as (table & joined & _ & _ & ->). exists joined.
    by rewrite (location_layer_name _ _ HID).
Qed.

Lemma resolve_then_join_witness :
  ∃ printed layers,
    filefinder Cases.served "data" "list" Sample.world
    = (Ok (PyList (file_path "data" <$> Cases.served)),
       add_stdout Sample.world printed) ∧
    tablejoiner "out" "gpk" (file_path "data" <$> Cases.served)
      (add_stdout Sample.world printed)
    = (Ok (), add_written (add_stdout Sample.world printed) layers) ∧
    Forall2 (λ ID out,
               ∃ joined,
                 out = LayerFile ["out"; "TravelMatrix.gpkg"]
                         (Some "GPKG") (Some (str ID)) joined)
      Cases.served layers.
Proof.
  refine (resolve_then_join Sample.world Sample.grid Sample.grid_ids
            Cases.served "data" "out" _ eq_refl eq_refl _ _ _).
  - done.
  - apply (bool_decide_unpack _). vm_compute. exact I.
  - repeat constructor; lia.
  - repeat constructor;
      (exists Sample.table, [5785641; 5785640; 9999999];
       split; [reflexivity|]; split; [reflexivity|];
       apply (bool_decide_unpack _); vm_compute; exact I).
Defined.

(** [filefinder] never looks for the table itself: an identifier of the
    grid is resolved to its location whether or not a file exists there,
    and it is [tablejoiner] that then fails on that location with the
    reader's error, saving nothing. *)
Theorem resolved_without_table
    (w : World) (grid : DataFrame) (IDs : list Z) (ID : Z)
    (folder_path output_folder output_format : string) :
  spatial_files w grid_path None = Some grid →
  getitem grid "YKR_ID" = Ok (IntCol IDs) →
  ID ∈ IDs →
  text_tables w (file_path folder_path ID) = None →
  ∃ w1,
    filefinder [ID] folder_path "list" w
    = (Ok (PyList [file_path folder_path ID]), w1) ∧
    written w1 = written w ∧
    tablejoiner output_folder output_format [file_path folder_path ID] w1
    = (Raise (FileNotFoundError (file_path folder_path ID)), w1).
Proof.
  intros Hgrid Hkey HID Hnone.
  eexists. split.
  { rewrite (filefinder_run w grid IDs [ID] folder_path "list") by done.
    simpl. rewrite filter_cons, decide_True by done. reflexivity. }
  split; [done|].
  unfold tablejoiner. simpl.
  unfold mbind, M_bind, tablejoiner_step, mbind, M_bind,
    gpd_read_file, pd_read_csv.
  cbn [spatial_files add_stdout py_assert mret M_ret]. rewrite Hgrid.
  cbn [text_tables add_stdout]. by rewrite Hnone.
Qed.

Lemma resolved_without_table_witness :
  ∃ w1,
    filefinder [5785642] "data" "list" Sample.world
    = (Ok (PyList [file_path "data" 5785642]), w1) ∧
    written w1 = written Sample.world ∧
    tablejoiner "out" "gpk" [file_path "data" 5785642] w1
    = (Raise (FileNotFoundError (file_path "data" 5785642)), w1).
Proof.
  refine (resolved_without_table Sample.world Sample.grid Sample.grid_ids
            5785642 "data" "out" "gpk" eq_refl eq_refl _ eq_refl).
  apply (bool_decide_unpack _). vm_compute. exact I.
Defined.

(* ================================================================== *)
(** * The naming scheme of filefinder *)

Lemma slice_to_prefix (k : nat) (s : string) :
  ∃ rest, s = slice_to k s +:+ rest.
Proof.
  unfold slice_to. revert k. induction s as [|c s IH]; intros [|k]; simpl.
  - by exists "".
  - by exists "".
  - by exists (String c s).
  - destruct (IH k) as [rest Hrest]. exists rest. by rewrite Hrest at 1.
Qed.

Lemma length_slice_to (k : nat) (s : string) :
  String.length (slice_to k s) = (k `min` String.length s)%nat.
Proof. unfold slice_to. rewrite length_substring. lia. Qed.

(** C5, amended: for every identifier of the request that the grid holds,
    [filefinder] derives the location from the folder and the identifier
    alone: the folder, then a directory named by the first four characters
    of the decimal identifier followed by [xxx], then the file
    [travel_times_to_ <ID>.txt], with a blank between the underscore and the
    identifier.  The locations come in the order of the request, for those
    identifiers and no others. *)
Theorem filefinder_location_scheme
    (w : World) (grid : DataFrame) (IDs ids : list Z) (folder_path : string) :
  ids ≠ [] →
  spatial_files w grid_path None = Some grid →
  getitem grid "YKR_ID" = Ok (IntCol IDs) →
  ∃ paths w',
    filefinder ids folder_path "list" w = (Ok (PyList paths), w') ∧
    paths
    = (λ ID, [folder_path;
              slice_to 4 (str ID) +:+ "xxx";
              "travel_times_to_ " +:+ str ID +:+ ".txt"])
        <$> filter (λ ID, ID ∈ IDs) ids ∧
    (∀ ID, ID ∈ ids → ID ∈ IDs →
       [folder_path;
        slice_to 4 (str ID) +:+ "xxx";
        "travel_times_to_ " +:+ str ID +:+ ".txt"] ∈ paths) ∧
    (∀ ID,
       String.length (slice_to 4 (str ID)) = (4 `min` String.length (str ID))%nat ∧
       ∃ rest, str ID = slice_to 4 (str ID) +:+ rest).
Proof.
  intros Hne Hgrid Hkey. eexists _, _. split.
  { by rewrite (filefinder_run w grid IDs ids folder_path "list"). }
  split; [done|]. split.
  - intros ID Hin HID. simpl.
    apply (list_elem_of_fmap_2 (file_path folder_path)).
    by apply list_elem_of_filter.
  - intros ID. split; [apply length_slice_to | apply slice_to_prefix].
Qed.

Lemma filefinder_location_scheme_witness :
  ∃ paths w',
    filefinder Sample.request "data" "list" Sample.world
    = (Ok (PyList paths), w') ∧
    paths
    = (λ ID, ["data";
              slice_to 4 (str ID) +:+ "xxx";
              "travel_times_to_ " +:+ str ID +:+ ".txt"])
        <$> filter (λ ID, ID ∈ Sample.grid_ids) Sample.request ∧
    (∀ ID, ID ∈ Sample.request → ID ∈ Sample.grid_ids →
       ["data";
        slice_to 4 (str ID) +:+ "xxx";
        "travel_times_to_ " +:+ str ID +:+ ".txt"] ∈ paths) ∧
    (∀ ID,
       String.length (slice_to 4 (str ID)) = (4 `min` String.length (str ID))%nat ∧
       ∃ rest, str ID = slice_to 4 (str ID) +:+ rest).
Proof.
  refine (filefinder_location_scheme Sample.world Sample.grid Sample.grid_ids
            Sample.request "data" _ eq_refl eq_refl).
  done.
Defined.

(* ================================================================== *)
(** * Identifiers the grid does not hold *)

Lemma append_inj_l (s s' t : string) : s +:+ t = s' +:+ t → s = s'.
Proof.
  intros Heq.
  assert (String.length s = String.length s') as Hlen.
  { apply (f_equal String.length) in Heq. rewrite !length_append in Heq. lia. }
  rewrite <- (substring_prefix s t), <- (substring_prefix s' t).
  by rewrite Heq, Hlen.
Qed.

Lemma file_path_inj folder : Inj (=) (=) (file_path folder).
Proof.
  intros ID ID' Heq. unfold file_path in Heq.
  inversion Heq as [[Hdir Hname]].
  change ("" +:+ str ID +:+ ".txt") with (str ID +:+ ".txt") in Hname.
  change ("" +:+ str ID' +:+ ".txt") with (str ID' +:+ ".txt") in Hname.
  apply append_inj_l in Hname. by apply pretty_Z_inj.
Qed.

(** C7, as stated, fails: [filefinder] keeps no unresolved sequence.  With
    300, which the grid does not hold, in the request, what it returns and
    what it saves are exactly what it returns and saves for the request
    without 300, whether a list or the manifest is asked for: the miss is
    recorded nowhere but in a printed line. *)
Lemma filefinder_keeps_no_unresolved :
  (300 ∉ Sample.grid_ids) ∧
  ∃ paths w1 w2 w3 w4,
    filefinder [5785640; 300; 5785642] "data" "list" Sample.world
    = (Ok (PyList paths), w1) ∧
    filefinder [5785640; 5785642] "data" "list" Sample.world
    = (Ok (PyList paths), w2) ∧
    written w1 = [] ∧
    filefinder [5785640; 300; 5785642] "data" "text" Sample.world
    = (Ok PyNone, w3) ∧
    filefinder [5785640; 5785642] "data" "text" Sample.world
    = (Ok PyNone, w4) ∧
    written w3 = written w4 ∧
    written w3 = [CsvFile "file_paths.txt" "file_paths" paths] ∧
    file_path "data" 300 ∉ paths.
Proof.
  split.
  { apply (bool_decide_unpack _). vm_compute. exact I. }
  eexists _, _, _, _, _.
  split; [vm_compute; reflexivity|].
  split; [vm_compute; reflexivity|].
  split; [reflexivity|].
  split; [vm_compute; reflexivity|].
  split; [vm_compute; reflexivity|].
  split; [reflexivity|]. split; [reflexivity|].
  apply (bool_decide_unpack _). vm_compute. exact I.
Qed.

(** C7, amended: with a readable grid [filefinder] never raises on a
    non-empty request that holds identifiers unknown to the grid.  Each such
    identifier is reported by one printed line, at its position in the
    output, and recorded nowhere else: its location is neither in the list
    returned nor in the manifest saved.  Processing goes on after a miss:
    every identifier gets its line, and the list returned for ['list'], or
    saved for ['text'], holds the locations of all identifiers of the
    request that the grid holds, those after a miss included. *)
Theorem filefinder_miss_reported
    (w : World) (grid : DataFrame) (IDs ids : list Z)
    (folder_path output : string) :
  ids ≠ [] →
  spatial_files w grid_path None = Some grid →
  getitem grid "YKR_ID" = Ok (IntCol IDs) →
  ∃ v w' printed paths,
    filefinder ids folder_path output w = (Ok v, w') ∧
    paths = file_path folder_path <$> filter (λ ID, ID ∈ IDs) ids ∧
    v = (if String.eqb output "list" then PyList paths else PyNone) ∧
    written w'
    = written w ++
      (if String.eqb output "list" then []
       else if String.eqb output "text"
            then [CsvFile "file_paths.txt" "file_paths" paths] else []) ∧
    stdout w' = stdout w ++ printed ∧
    length printed = length ids ∧
    (∀ i ID, ids !! i = Some ID → ID ∉ IDs →
       printed !! i = Some (missing_line ID folder_path) ∧
       file_path folder_path ID ∉ paths) ∧
    (∀ i ID, ids !! i = Some ID → ID ∈ IDs →
       printed !! i
       = Some (progress_line ID (Z.of_nat i + 1) (Z.of_nat (length ids))) ∧
       file_path folder_path ID ∈ paths) ∧
    filter (λ line, is_missing_line line = true) printed
    = (λ ID, missing_line ID folder_path) <$> filter (λ ID, ID ∉ IDs) ids.
Proof.
  intros Hne Hgrid HIDs.
  pose proof (filefinder_run w grid IDs ids folder_path output Hne Hgrid HIDs) as Hrun.
  simpl in Hrun.
  set (printed := report IDs folder_path (Z.of_nat (length ids)) ids 0) in *.
  set (paths := file_path folder_path <$> filter (λ ID, ID ∈ IDs) ids) in *.
  assert (∃ v w',
            filefinder ids folder_path output w = (Ok v, w') ∧
            v = (if String.eqb output "list" then PyList paths else PyNone) ∧
            written w'
            = written w ++
              (if String.eqb output "list" then []
               else if String.eqb output "text"
                    then [CsvFile "file_paths.txt" "file_paths" paths] else []) ∧
            stdout w' = stdout w ++ printed) as (v & w' & Hv & Hval & Hwr & Hout).
  { rewrite Hrun. destruct (String.eqb output "list").
    - eexists _, _. split; [done|]. split; [done|]. simpl.
      by rewrite app_nil_r.
    - destruct (String.eqb output "text"); eexists _, _;
        (split; [done|]); (split; [done|]); simpl; [done|].
      by rewrite app_nil_r. }
  exists v, w', printed, paths. split; [done|]. split; [done|].
  split; [done|]. split; [done|]. split; [done|].
  split; [apply report_length|].
  split; [|split].
  - intros i ID Hi Hmiss. split.
    + unfold printed. rewrite (report_lookup _ _ _ _ _ _ _ Hi).
      by rewrite bool_decide_false.
    + unfold paths. intros Hin.
      apply list_elem_of_fmap in Hin as (ID' & Heq & Hin).
      apply file_path_inj in Heq as <-.
      apply list_elem_of_filter in Hin as [Hin _]. by destruct Hmiss.
  - intros i ID Hi Hin. split.
    + unfold printed. rewrite (report_lookup _ _ _ _ _ _ _ Hi).
      rewrite bool_decide_true by done. do 2 f_equal. lia.
    + unfold paths. apply list_elem_of_fmap_2. apply list_elem_of_filter.
      split; [done|]. apply list_elem_of_lookup. by exists i.
  - apply report_missing.
Qed.

Lemma filefinder_miss_reported_witness :
  ∃ v w' printed paths,
    filefinder Sample.request "data" "text" Sample.world = (Ok v, w') ∧
    paths = file_path "data" <$> filter (λ ID, ID ∈ Sample.grid_ids) Sample.request ∧
    v = (if String.eqb "text" "list" then PyList paths else PyNone) ∧
    written w'
    = written Sample.world ++
      (if String.eqb "text" "list" then []
       else if String.eqb "text" "text"
            then [CsvFile "file_paths.txt" "file_paths" paths] else []) ∧
    stdout w' = stdout Sample.world ++ printed ∧
    length printed = length Sample.request ∧
    (∀ i ID, Sample.request !! i = Some ID → ID ∉ Sample.grid_ids →
       printed !! i = Some (missing_line ID "data") ∧
       file_path "data" ID ∉ paths) ∧
    (∀ i ID, Sample.request !! i = Some ID → ID ∈ Sample.grid_ids →
       printed !! i
       = Some (progress_line ID (Z.of_nat i + 1)
                 (Z.of_nat (length Sample.request))) ∧
       file_path "data" ID ∈ paths) ∧
    filter (λ line, is_missing_line line = true) printed
    = (λ ID, missing_line ID "data")
        <$> filter (λ ID, ID ∉ Sample.grid_ids) Sample.request.
Proof.
  refine (filefinder_miss_reported Sample.world Sample.grid Sample.grid_ids
            Sample.request "data" "text" _ eq_refl eq_refl).
  done.
Defined.

(* ================================================================== *)
(** * What compare saves, and what neither function checks *)

(** C3: the difference is computed first mode minus second mode, but only
    in the selection, which [compare] drops.  Asked for [car_r_t] against
    [pt_r_t] and for [pt_r_t] against [car_r_t], [compare] saves the same
    layer both times, the layer as read, which has no [diff] column; the
    two [diff] columns it had computed, [[-10; -7]] and [[10; 7]], are in
    neither file. *)
Theorem compare_saved_layer_has_no_diff :
  compare "gpkg" "5785640" "TravelMatrix.gpkg" ["car_r_t"; "pt_r_t"] Sample.world
  = (Ok (),
     add_written Sample.world
       [LayerFile ["Acessibility_5785640_car_r_t_vs_pt_r_t.gpkg"]
          (Some "GPKG") (Some "5785640") Sample.layer]) ∧
  compare "gpkg" "5785640" "TravelMatrix.gpkg" ["pt_r_t"; "car_r_t"] Sample.world
  = (Ok (),
     add_written Sample.world
       [LayerFile ["Acessibility_5785640_pt_r_t_vs_car_r_t.gpkg"]
          (Some "GPKG") (Some "5785640") Sample.layer]) ∧
  getitem Sample.layer "diff" = Raise (KeyError "diff") ∧
  (compare_selection Sample.layer ["car_r_t"; "pt_r_t"]
     ≫= λ selection, getitem selection "diff")
  = Ok (IntCol [-10; -7]) ∧
  (compare_selection Sample.layer ["pt_r_t"; "car_r_t"]
     ≫= λ selection, getitem selection "diff")
  = Ok (IntCol [10; 7]).
Proof.
  repeat split; vm_compute; reflexivity.
Qed.



(** A column with rows that is not numeric, the geometry or a text column,
    cannot serve as mode: [visualiser], and [compare] given it as first
    name, fail with [TypeError] at the comparison with 0 and save
    nothing. *)
Theorem non_numeric_mode_fails
    (w : World) (file path YKR_ID mode : string) (data : DataFrame) (c : Column) :
  read_input file path YKR_ID w = (Ok (Some data), w) →
  getitem data mode = Ok c →
  (∀ xs, c ≠ IntCol xs) →
  (0 < col_length c)%nat →
  (∀ output kind,
     visualiser file path YKR_ID mode output kind w = (Raise TypeError, w)) ∧
  (∀ b, compare file YKR_ID path [mode; b] w = (Raise TypeError, w)).
Proof.
  intros Hread Hc Hnum Hrows.
  assert (ge0 c = Raise TypeError) as Hge.
  { destruct c as [xs|[|s ss]|gs]; simpl in *;
      [by destruct (Hnum xs) | lia | done | done]. }
  split.
  - intros output kind. unfold visualiser, mbind, M_bind. rewrite Hread. simpl.
    unfold lift, visualiser_selection. by rewrite Hc; simpl; rewrite Hge.
  - intros b. unfold compare, mbind, M_bind. rewrite Hread. simpl.
    unfold lift, compare_selection. simpl. by rewrite Hc; simpl; rewrite Hge.
Qed.

Lemma non_numeric_mode_fails_witness :
  (∀ output kind,
     visualiser "shp" "layers\5785640.shp" "5785640" "geometry" output kind
       Sample.world
     = (Raise TypeError, Sample.world)) ∧
  (∀ b, compare "shp" "5785640" "layers\5785640.shp" ["geometry"; b] Sample.world
        = (Raise TypeError, Sample.world)).
Proof.
  refine (non_numeric_mode_fails Sample.world "shp" "layers\5785640.shp"
            "5785640" "geometry" Sample.layer
            (GeomCol [Sample.cell 0 0; Sample.cell 250 0;
                      Sample.cell 500 0; Sample.cell 750 0])
            eq_refl eq_refl _ _).
  - done.
  - simpl. lia.
Defined.
